(** * StoryWeaver AI: the idea stage and the Notion persistence adapter

  A shallow embedding of [agents/idea_generator_agent.py],
  [utils/prompts.py] and [utils/notion_client.py], and the properties
  their specification states about them.

  Conventions of the embedding:
  - a Python [str] is a [string]; every character stands for one code
    point (below 256), so [String.length] is Python's [len];
  - a Python [int] is a [Z];
  - a [Dict[str, str]] is a [gmap string string];
  - a call that may raise returns an [outcome]; what a function prints
    and which remote requests it issues are recorded, in order, in the
    [trace] that the [io] monad carries. *)

From Stdlib Require Import ZArith Ascii String List Lia QArith.
From stdpp Require Import base option gmap strings list fin_maps.

Local Open Scope Z_scope.

(** ** Python strings *)

Module PyStr.

(** [len(s)] *)
Definition len (s : string) : Z := Z.of_nat (String.length s).

(** The first [n] characters of [s] (all of [s] when it is shorter). *)
Fixpoint take (n : nat) (s : string) : string :=
  match n, s with
  | S n', String c s' => String c (take n' s')
  | _, _ => EmptyString
  end.

(** The slice [s[:stop]]: a negative [stop] counts from the end, and
    both ends are clipped to the string. *)
Definition slice_to (s : string) (stop : Z) : string :=
  let n := len s in
  let upper := if stop <? 0 then Z.max 0 (n + stop) else Z.min stop n in
  take (Z.to_nat upper) s.

(** [s * n] *)
Fixpoint repeat (s : string) (n : nat) : string :=
  match n with
  | O => EmptyString
  | S n' => s +:+ repeat s n'
  end.

(** [s.endswith(suffix)] *)
Fixpoint drop (n : nat) (s : string) : string :=
  match n, s with
  | S n', String _ s' => drop n' s'
  | _, _ => s
  end.

Definition endswith (s suffix : string) : bool :=
  bool_decide
    (drop (String.length s - String.length suffix)%nat s = suffix).

Definition startswith (s pre : string) : bool :=
  bool_decide (take (String.length pre) s = pre).

(** Truthiness of a string: [bool(s)]. *)
Definition truthy (s : string) : bool :=
  match s with
  | EmptyString => false
  | String _ _ => true
  end.

(** Code points below 256 for which [str.isspace] holds: tab, line
    feed, vertical tab, form feed, carriage return, the four
    separators 28 to 31, space, next line (133) and no-break space
    (160). *)
Definition isspace (c : ascii) : bool :=
  let n := nat_of_ascii c in
  ((9 <=? n) && (n <=? 13) || (28 <=? n) && (n <=? 32)
   || (n =? 133) || (n =? 160))%nat.

Fixpoint lstrip (s : string) : string :=
  match s with
  | EmptyString => EmptyString
  | String c s' => if isspace c then lstrip s' else s
  end.

(** [rstrip] drops the trailing white space: a character stays when it
    is not white space or when something stays after it. *)
Fixpoint rstrip (s : string) : string :=
  match s with
  | EmptyString => EmptyString
  | String c s' =>
      match rstrip s' with
      | EmptyString => if isspace c then EmptyString
                       else String c EmptyString
      | String d r => String c (String d r)
      end
  end.

(** [s.strip()] *)
Definition strip (s : string) : string := rstrip (lstrip s).

(** [s.lower()] on code points below 256: the letters A to Z and the
    capital letters 192 to 222 (the multiplication sign 215 apart)
    move up by 32. *)
Definition lower_char (c : ascii) : ascii :=
  let n := nat_of_ascii c in
  if ((65 <=? n) && (n <=? 90)
      || (192 <=? n) && (n <=? 222) && negb (n =? 215))%nat
  then ascii_of_nat (n + 32) else c.

Fixpoint lower (s : string) : string :=
  match s with
  | EmptyString => EmptyString
  | String c s' => String (lower_char c) (lower s')
  end.

End PyStr.

(** ** Exceptions, outcomes and the [io] monad *)

(** The exception classes the two modules meet. [OtherException] is any
    further subclass of [Exception] (the errors of the OpenAI and Notion
    libraries among them); [NonException] is a [BaseException] outside
    [Exception], such as [KeyboardInterrupt] or [CancelledError]. *)
Inductive exn_class :=
| APIResponseError
| RuntimeError
| ValueError
| IndexError
| KeyError
| OtherException (name : string)
| NonException (name : string).

(** An exception object; [exn_str] is what [str(e)] gives. *)
Record exn := Exn { exn_cls : exn_class; exn_str : string }.

(** [isinstance(e, Exception)]: what [except Exception] catches. *)
Definition isinstance_Exception (e : exn) : bool :=
  match exn_cls e with
  | NonException _ => false
  | _ => true
  end.

(** [isinstance(e, APIResponseError)] *)
Definition isinstance_APIResponseError (e : exn) : bool :=
  match exn_cls e with
  | APIResponseError => true
  | _ => false
  end.

Inductive outcome (A : Type) :=
| Return (a : A)
| Raise (e : exn).
Arguments Return {A} a.
Arguments Raise {A} e.

Module OpenAI.

(** The client object: [AzureOpenAI(api_key=, api_version=,
    azure_endpoint=)] or [OpenAI(api_key=)]. *)
Inductive client :=
| AzureOpenAI (api_key api_version azure_endpoint : option string)
| OpenAI (api_key : option string).

Module Param.
(** One entry of [messages]: [{"role": ..., "content": ...}]. *)
Record message := { role : string; content : string }.
End Param.

(** The keyword arguments of [chat.completions.create]. *)
Record create_params := {
  model : string;
  messages : list Param.message;
  max_tokens : Z;
  temperature : Q
}.

Record ChatCompletionMessage := { content : option string }.
Record Choice := { message : ChatCompletionMessage }.
Record ChatCompletion := { choices : list Choice }.

End OpenAI.

Module Notion.

(** [Client(auth=...)] *)
Record client := { auth : string }.

(** [{"content": ...}] *)
Record text_content := { content : string }.

(** An entry of a rich text list: [{"text": {...}}], with the key
    ["type"] when the source gives one. *)
Record rich_text_item := { type : option string; text : text_content }.

(** A property value: [{"title": [...]}], [{"rich_text": [...]}] or
    [{"select": {"name": ...}}]. *)
Inductive property :=
| title (items : list rich_text_item)
| rich_text (items : list rich_text_item)
| select (name : string).

(** The body of a block, under the key that repeats its ["type"]:
    [{"rich_text": [...]}]. *)
Inductive block_body :=
| heading_1 (items : list rich_text_item)
| paragraph (items : list rich_text_item).

(** [{"object": ..., "type": ..., <type>: {...}}] *)
Record block := { object : string; body : block_body }.

(** [{"database_id": ...}] *)
Record parent := { database_id : string }.

(** The keyword arguments of [pages.create]. *)
Record create_params := {
  create_parent : parent;
  create_properties : gmap string property;
  children : list block
}.

(** The keyword arguments of [pages.update]. *)
Record update_params := {
  page_id : string;
  update_properties : gmap string property
}.

(** Page data, [Dict[str, Any]]; the values are kept as their text. *)
Abbreviation page := (gmap string string) (only parsing).

(** What a call of the client returns, by the shape the source tells
    apart: an object with a [__dict__], a dictionary, or anything else
    (with its [str]). *)
Inductive response :=
| Object (__dict__ : page)
| Dict (d : page)
| Other (str : string).

(** The text contents a property value carries. *)
Definition property_texts (p : property) : list string :=
  match p with
  | title items | rich_text items => map (fun i => content (text i)) items
  | select _ => []
  end.

(** The text contents a block carries. *)
Definition block_texts (b : block) : list string :=
  match body b with
  | heading_1 items | paragraph items => map (fun i => content (text i)) items
  end.

End Notion.

(** What a run does to the outside, in order. *)
Inductive event :=
| Print (line : string)
| ChatCompletionsCreate (c : OpenAI.client) (p : OpenAI.create_params)
| PagesCreate (c : Notion.client) (p : Notion.create_params)
| PagesUpdate (c : Notion.client) (p : Notion.update_params).

Definition trace := list event.

(** A computation: the events it caused and how it ended. *)
Definition io (A : Type) : Type := (trace * outcome A)%type.

#[global] Instance io_ret : MRet io := fun A a => ([], Return a).

#[global] Instance io_bind : MBind io := fun A B f m =>
  match m with
  | (t, Return a) => let '(t', r) := f a in (t ++ t', r)
  | (t, Raise e) => (t, Raise e)
  end.

Definition raise {A} (e : exn) : io A := ([], Raise e).

Definition print (line : string) : io unit := ([Print line], Return tt).

(** A pure call that may raise. *)
Definition lift {A} (o : outcome A) : io A := ([], o).

(** An [except] clause: the class test and the handler. *)
Definition except_clause (A : Type) : Type := ((exn -> bool) * (exn -> io A))%type.

Definition except {A} (test : exn -> bool) (handler : exn -> io A)
  : except_clause A := (test, handler).

(** The first clause that matches the exception, as Python picks it. *)
Fixpoint find_clause {A} (clauses : list (except_clause A)) (e : exn)
  : option (exn -> io A) :=
  match clauses with
  | [] => None
  | (test, handler) :: rest =>
      if test e then Some handler else find_clause rest e
  end.

(** [try: body except ...]: an exception of the body runs the first
    matching handler; without one it goes on to the caller. *)
Definition try_except {A} (body : io A) (clauses : list (except_clause A))
  : io A :=
  match body with
  | (t, Return a) => (t, Return a)
  | (t, Raise e) =>
      match find_clause clauses e with
      | Some handler => let '(t', r) := handler e in (t ++ t', r)
      | None => (t, Raise e)
      end
  end.

(** The requests of a trace, without what was printed. *)
Definition is_request (ev : event) : bool :=
  match ev with
  | Print _ => false
  | _ => true
  end.

Definition requests (t : trace) : list event := filter is_request t.

(** [str(x)] of an optional string: [None] reads "None". *)
Definition str_of_option (x : option string) : string :=
  match x with
  | Some s => s
  | None => "None"
  end.

(** Truthiness of an optional string: [None] and the empty string are
    false. *)
Definition truthy_option (x : option string) : bool :=
  match x with
  | Some s => PyStr.truthy s
  | None => false
  end.

(** [l[i]] for a list and a non-negative index. *)
Definition list_index {A} (l : list A) (i : nat) : outcome A :=
  match l !! i with
  | Some a => Return a
  | None => Raise (Exn IndexError "list index out of range")
  end.

(** ** utils/prompts.py *)

(** A format string, split at its replacement fields. *)
Inductive segment :=
| Lit (s : string)
| Field (name : string).

Definition nl : string := String "010"%char EmptyString.
Definition dquote : string := String "034"%char EmptyString.
Definition e_acute : string := String "233"%char EmptyString.

(** [template.format] with keyword arguments [kwargs]; a field without an argument raises
    [KeyError]. *)
Fixpoint format (template : list segment) (kwargs : gmap string string)
  : outcome string :=
  match template with
  | [] => Return EmptyString
  | Lit s :: rest =>
      match format rest kwargs with
      | Return r => Return (s +:+ r)
      | Raise e => Raise e
      end
  | Field name :: rest =>
      match kwargs !! name with
      | None => Raise (Exn KeyError ("'" +:+ name +:+ "'"))
      | Some v =>
          match format rest kwargs with
          | Return r => Return (v +:+ r)
          | Raise e => Raise e
          end
      end
  end.

Definition STORY_PROMPT_TEMPLATE : list segment :=
  [Lit "Write a story about "; Field "topic"; Lit "."].

Definition IDEA_GENERATOR_PROMPT_TEMPLATE : list segment :=
  [ Lit (nl +:+
      "You are a creative and imaginative story idea generator. Your task is to generate original, compelling, and concise story ideas based on the user's input." +:+ nl +:+
      nl +:+
      "User Input: ");
    Field "user_input";
    Lit (nl +:+
      nl +:+
      "Please generate 3-5 unique story ideas that are:" +:+ nl +:+
      "1. Original and imaginative - avoid clich" +:+ e_acute +:+ "s and predictable plots" +:+ nl +:+
      "2. Concise - each idea should be 2-3 sentences maximum" +:+ nl +:+
      "3. Diverse in genre and tone - explore different possibilities" +:+ nl +:+
      "4. Specific enough to inspire a writer but open-ended enough to allow creative development" +:+ nl +:+
      nl +:+
      "Format each idea as a numbered list with a brief title and description." +:+ nl +:+
      "Example:" +:+ nl +:+
      "1. " +:+ dquote +:+ "The Memory Collector" +:+ dquote +:+ " - A woman discovers she can extract and store other people's memories in glass jars. When a mysterious client requests a specific childhood memory, she uncovers a conspiracy." +:+ nl +:+
      nl +:+
      "Be bold, creative, and surprising in your ideas!" +:+ nl) ].

(** ** agents/idea_generator_agent.py *)

(** [os.environ] *)
Abbreviation environ := (gmap string string) (only parsing).

(** [os.getenv(key, default)] *)
Definition getenv_default (env : environ) (key fallback : string) : string :=
  default fallback (env !! key).

Record IdeaGeneratorAgent := {
  api_type : string;
  api_key : option string;
  model : string;
  api_base : option string;
  api_version : option string;
  deployment_name : option string;
  client : OpenAI.client
}.

Section AgentConstruction.

(** The constructors [AzureOpenAI(...)] and [OpenAI(...)] belong to the
    OpenAI library. They make no request, and they may raise (an
    [OpenAIError] when no API key is available): [client_error c] is the
    exception that the construction of the client [c] raises, if any. *)
Variable client_error : OpenAI.client -> option exn.

Definition new_client (c : OpenAI.client) : io OpenAI.client :=
  match client_error c with
  | Some e => raise e
  | None => mret c
  end.

(** [IdeaGeneratorAgent.__init__], reading [env] for [os.environ]. *)
Definition IdeaGeneratorAgent__init__ (env : environ) : io IdeaGeneratorAgent :=
  let api_type := getenv_default env "OPENAI_API_TYPE" "openai" in
  let api_key := env !! "OPENAI_API_KEY" in
  let model := getenv_default env "OPENAI_MODEL" "gpt-4o" in
  let api_base := env !! "OPENAI_API_BASE" in
  let api_version := env !! "OPENAI_API_VERSION" in
  let deployment_name := env !! "OPENAI_DEPLOYMENT_NAME" in
  if String.eqb (PyStr.lower api_type) "azure" then
    if negb (truthy_option api_base && truthy_option api_version
             && truthy_option deployment_name) then
      raise (Exn RuntimeError "Missing Azure OpenAI configuration in .env")
    else
      client ← new_client (OpenAI.AzureOpenAI api_key api_version api_base);
      mret {| api_type := api_type; api_key := api_key; model := model;
              api_base := api_base; api_version := api_version;
              deployment_name := deployment_name;
              client := client |}
  else
    client ← new_client (OpenAI.OpenAI api_key);
    mret {| api_type := api_type; api_key := api_key; model := model;
            api_base := api_base; api_version := api_version;
            deployment_name := deployment_name;
            client := client |}.

End AgentConstruction.

(** The decimal literal [0.9]. *)
Definition temperature_0_9 : Q := (9 # 10)%Q.

(** An awaitable: nothing of its body runs before it is awaited. *)
Definition coroutine (A : Type) : Type := unit -> io A.

Definition await {A} (c : coroutine A) : io A := c tt.

Section IdeaAgent.

(** The client constructors of the library, as in [new_client]. *)
Variable client_error : OpenAI.client -> option exn.

(** The remote completion service behind [client.chat.completions.create]. *)
Variable chat_completions_create :
  OpenAI.client -> OpenAI.create_params -> outcome OpenAI.ChatCompletion.

(** The call itself: it is recorded, and returns or raises what the
    service answers. *)
Definition chat_create (c : OpenAI.client) (p : OpenAI.create_params)
  : io OpenAI.ChatCompletion :=
  ([ChatCompletionsCreate c p], chat_completions_create c p).

(** [IdeaGeneratorAgent.generate_idea_sync] *)
Definition generate_idea_sync (self : IdeaGeneratorAgent) (prompt : string)
  : io (gmap string string) :=
  formatted_prompt ←
    lift (format IDEA_GENERATOR_PROMPT_TEMPLATE {[ "user_input" := prompt ]});
  try_except
    (response ←
       (if String.eqb (PyStr.lower (api_type self)) "azure" then
          chat_create (client self)
            {| OpenAI.model := str_of_option (deployment_name self);
               OpenAI.messages :=
                 [ {| OpenAI.Param.role := "user";
                      OpenAI.Param.content := formatted_prompt |} ];
               OpenAI.max_tokens := 800;
               OpenAI.temperature := temperature_0_9 |}
        else
          chat_create (client self)
            {| OpenAI.model := model self;
               OpenAI.messages :=
                 [ {| OpenAI.Param.role := "user";
                      OpenAI.Param.content := formatted_prompt |} ];
               OpenAI.max_tokens := 800;
               OpenAI.temperature := temperature_0_9 |});
     choice ← lift (list_index (OpenAI.choices response) 0);
     let content := OpenAI.content (OpenAI.message choice) in
     let ideas :=
       match content with
       | Some c => if PyStr.truthy c then PyStr.strip c else EmptyString
       | None => EmptyString
       end in
     mret {[ "ideas" := ideas ]})
    [ except isinstance_Exception (fun e =>
        print ("Error generating ideas: " +:+ exn_str e);;
        mret {[ "ideas" := "Error generating ideas: " +:+ exn_str e ]}) ].

(** [IdeaGeneratorAgent.generate_idea], the [async def]. *)
Definition generate_idea (self : IdeaGeneratorAgent) (prompt : string)
  : coroutine (gmap string string) := fun _ =>
  formatted_prompt ←
    lift (format IDEA_GENERATOR_PROMPT_TEMPLATE {[ "user_input" := prompt ]});
  try_except
    (response ←
       (if String.eqb (PyStr.lower (api_type self)) "azure" then
          chat_create (client self)
            {| OpenAI.model := str_of_option (deployment_name self);
               OpenAI.messages :=
                 [ {| OpenAI.Param.role := "user";
                      OpenAI.Param.content := formatted_prompt |} ];
               OpenAI.max_tokens := 800;
               OpenAI.temperature := temperature_0_9 |}
        else
          chat_create (client self)
            {| OpenAI.model := model self;
               OpenAI.messages :=
                 [ {| OpenAI.Param.role := "user";
                      OpenAI.Param.content := formatted_prompt |} ];
               OpenAI.max_tokens := 800;
               OpenAI.temperature := temperature_0_9 |});
     choice ← lift (list_index (OpenAI.choices response) 0);
     let content := OpenAI.content (OpenAI.message choice) in
     let ideas :=
       match content with
       | Some c => if PyStr.truthy c then PyStr.strip c else EmptyString
       | None => EmptyString
       end in
     mret {[ "ideas" := ideas ]})
    [ except isinstance_Exception (fun e =>
        print ("Error generating ideas: " +:+ exn_str e);;
        mret {[ "ideas" := "Error generating ideas: " +:+ exn_str e ]}) ].

(** [ideaAgentNode], the node of the workflow (synchronous). *)
Definition ideaAgentNode (env : environ) (state : gmap string string)
  : io (gmap string string) :=
  let user_prompt := default EmptyString (state !! "prompt") in
  idea_agent ← IdeaGeneratorAgent__init__ client_error env;
  ideas_result ← generate_idea_sync idea_agent user_prompt;
  mret ideas_result.


End IdeaAgent.

(** ** utils/notion_client.py *)

Record NotionStoryManager := {
  notion_token : string;
  notion_client : Notion.client;
  database_id : string
}.

(** [NotionStoryManager.__init__] *)
Definition NotionStoryManager__init__ (env : environ)
  (database_id : option string) : io NotionStoryManager :=
  let notion_token := env !! "NOTION_TOKEN" in
  if negb (truthy_option notion_token) then
    raise (Exn ValueError "NOTION_TOKEN environment variable is required")
  else
    let client := {| Notion.auth := str_of_option notion_token |} in
    let database_id :=
      if truthy_option database_id then database_id
      else env !! "NOTION_DATABASE_ID" in
    if negb (truthy_option database_id) then
      raise (Exn ValueError
        "NOTION_DATABASE_ID environment variable or parameter is required")
    else
      mret {| notion_token := str_of_option notion_token;
              notion_client := client;
              database_id := str_of_option database_id |}.

(** [NotionStoryManager._truncate_text] *)
Definition _truncate_text (text : string) (max_length : Z) : string :=
  if PyStr.len text <=? max_length then text
  else PyStr.slice_to text (max_length - 3) +:+ "...".

(** The default of the [max_length] parameter. *)
Definition default_max_length : Z := 1900.

(** [{"text": {"content": s}}] *)
Definition text_item (s : string) : Notion.rich_text_item :=
  {| Notion.type := None; Notion.text := {| Notion.content := s |} |}.

(** [{"type": "text", "text": {"content": s}}] *)
Definition typed_text_item (s : string) : Notion.rich_text_item :=
  {| Notion.type := Some "text"; Notion.text := {| Notion.content := s |} |}.

(** The [properties] that [create_story_page] prepares. *)
Definition create_story_page_properties (story_data : gmap string string)
  : gmap string Notion.property :=
  let properties : gmap string Notion.property :=
    {[ "Title" :=
         Notion.title
           [ text_item
               (PyStr.slice_to
                  (default "Untitled Story" (story_data !! "prompt")) 100) ];
       "Status" := Notion.select "Generated" ]} in
  let properties :=
    match story_data !! "setting" with
    | Some setting =>
        <[ "Setting" :=
             Notion.rich_text
               [ text_item (_truncate_text setting default_max_length) ] ]>
          properties
    | None => properties
    end in
  let properties :=
    match story_data !! "characters" with
    | Some characters =>
        <[ "Characters" :=
             Notion.rich_text
               [ text_item (_truncate_text characters default_max_length) ] ]>
          properties
    | None => properties
    end in
  let properties :=
    match story_data !! "conflict" with
    | Some conflict =>
        <[ "Conflict" :=
             Notion.rich_text
               [ text_item (_truncate_text conflict default_max_length) ] ]>
          properties
    | None => properties
    end in
  let properties :=
    match story_data !! "resolution" with
    | Some resolution =>
        <[ "Resolution" :=
             Notion.rich_text
               [ text_item (_truncate_text resolution default_max_length) ] ]>
          properties
    | None => properties
    end in
  properties.

(** The [children] that [create_story_page] prepares. *)
Definition create_story_page_children (story_data : gmap string string)
  : list Notion.block :=
  let children :=
    [ {| Notion.object := "block";
         Notion.body := Notion.heading_1 [ typed_text_item "Generated Ideas" ] |} ] in
  let children :=
    match story_data !! "ideas" with
    | Some ideas =>
        if PyStr.truthy ideas then
          children ++
          [ {| Notion.object := "block";
               Notion.body :=
                 Notion.paragraph
                   [ typed_text_item
                       (_truncate_text
                          (default EmptyString (story_data !! "ideas"))
                          default_max_length) ] |} ]
        else children
    | None => children
    end in
  children ++
  [ {| Notion.object := "block";
       Notion.body := Notion.heading_1 [ typed_text_item "Complete Story" ] |};
    {| Notion.object := "block";
       Notion.body :=
         Notion.paragraph
           [ typed_text_item
               (_truncate_text
                  (default EmptyString (story_data !! "story"))
                  default_max_length) ] |} ].

(** The [properties] that [update_story_page] prepares. *)
Definition update_story_page_properties (story_data : gmap string string)
  : gmap string Notion.property :=
  let properties : gmap string Notion.property := ∅ in
  let properties :=
    match story_data !! "prompt" with
    | Some prompt =>
        <[ "Title" := Notion.title [ text_item (PyStr.slice_to prompt 100) ] ]>
          properties
    | None => properties
    end in
  let properties :=
    match story_data !! "setting" with
    | Some setting =>
        <[ "Setting" := Notion.rich_text [ text_item setting ] ]> properties
    | None => properties
    end in
  let properties :=
    match story_data !! "characters" with
    | Some characters =>
        <[ "Characters" := Notion.rich_text [ text_item characters ] ]>
          properties
    | None => properties
    end in
  let properties :=
    match story_data !! "conflict" with
    | Some conflict =>
        <[ "Conflict" := Notion.rich_text [ text_item conflict ] ]> properties
    | None => properties
    end in
  let properties :=
    match story_data !! "resolution" with
    | Some resolution =>
        <[ "Resolution" := Notion.rich_text [ text_item resolution ] ]>
          properties
    | None => properties
    end in
  properties.

(** The conversion of a response to a dictionary, as both functions end. *)
Definition response_to_dict (response : Notion.response) : Notion.page :=
  match response with
  | Notion.Object d => d
  | Notion.Dict d => d
  | Notion.Other s => {[ "id" := s ]}
  end.

Section NotionStore.

(** The remote store behind [client.pages.create] and
    [client.pages.update]. *)
Variable notion_pages_create :
  Notion.client -> Notion.create_params -> outcome Notion.response.
Variable notion_pages_update :
  Notion.client -> Notion.update_params -> outcome Notion.response.

Definition pages_create (c : Notion.client) (p : Notion.create_params)
  : io Notion.response :=
  ([PagesCreate c p], notion_pages_create c p).

Definition pages_update (c : Notion.client) (p : Notion.update_params)
  : io Notion.response :=
  ([PagesUpdate c p], notion_pages_update c p).

(** [NotionStoryManager.create_story_page] *)
Definition create_story_page (self : NotionStoryManager)
  (story_data : gmap string string) : io Notion.page :=
  try_except
    (let properties := create_story_page_properties story_data in
     let children := create_story_page_children story_data in
     response ←
       pages_create (notion_client self)
         {| Notion.create_parent := {| Notion.database_id := database_id self |};
            Notion.create_properties := properties;
            Notion.children := children |};
     mret (response_to_dict response))
    [ except isinstance_APIResponseError (fun e =>
        print ("Notion API error: " +:+ exn_str e);;
        raise e);
      except isinstance_Exception (fun e =>
        print ("Error creating story page: " +:+ exn_str e);;
        raise e) ].

(** [NotionStoryManager.update_story_page] *)
Definition update_story_page (self : NotionStoryManager) (page_id : string)
  (story_data : gmap string string) : io Notion.page :=
  try_except
    (let properties := update_story_page_properties story_data in
     response ←
       pages_update (notion_client self)
         {| Notion.page_id := page_id;
            Notion.update_properties := properties |};
     mret (response_to_dict response))
    [ except isinstance_APIResponseError (fun e =>
        print ("Notion API error: " +:+ exn_str e);;
        raise e);
      except isinstance_Exception (fun e =>
        print ("Error updating story page: " +:+ exn_str e);;
        raise e) ].

End NotionStore.

(** The text contents of a [pages.create] request, properties and
    children alike. *)
Definition submitted_texts_ok (limit : Z) (p : Notion.create_params) : Prop :=
  map_Forall (fun _ v => Forall (fun s => PyStr.len s <= limit)
                                (Notion.property_texts v))
             (Notion.create_properties p)
  /\ Forall (fun b => Forall (fun s => PyStr.len s <= limit)
                             (Notion.block_texts b))
            (Notion.children p).

(** ** utils/notion_client.py: reading and archiving

    [get_story_pages] and [delete_story_page] call the store through
    [databases.query] and through [pages.update] with [archived]; their
    runs are recorded with events of their own. *)

Module Admin.

Inductive event :=
| Print (line : string)
| DatabasesQuery (c : Notion.client) (database_id : string) (page_size : Z)
| PagesUpdateArchived (c : Notion.client) (page_id : string) (archived : bool).

Definition io (A : Type) : Type := (list event * outcome A)%type.

#[global] Instance io_ret : MRet io := fun A a => ([], Return a).

#[global] Instance io_bind : MBind io := fun A B f m =>
  match m with
  | (t, Return a) => let '(t', r) := f a in (t ++ t', r)
  | (t, Raise e) => (t, Raise e)
  end.

Definition raise {A} (e : exn) : io A := ([], Raise e).

Definition print (line : string) : io unit := ([Print line], Return tt).

Definition except {A} (test : exn -> bool) (handler : exn -> io A)
  : (exn -> bool) * (exn -> io A) := (test, handler).

Fixpoint find_clause {A} (clauses : list ((exn -> bool) * (exn -> io A)))
  (e : exn) : option (exn -> io A) :=
  match clauses with
  | [] => None
  | (test, handler) :: rest =>
      if test e then Some handler else find_clause rest e
  end.

Definition try_except {A} (body : io A)
  (clauses : list ((exn -> bool) * (exn -> io A))) : io A :=
  match body with
  | (t, Return a) => (t, Return a)
  | (t, Raise e) =>
      match find_clause clauses e with
      | Some handler => let '(t', r) := handler e in (t ++ t', r)
      | None => (t, Raise e)
      end
  end.

(** A value of a query response: a text, or a list of pages. *)
Inductive value :=
| Text (s : string)
| Pages (l : list (gmap string string)).

(** What [databases.query] returns, by the shape the source tells
    apart. *)
Inductive response :=
| Object (__dict__ : gmap string value)
| Dict (d : gmap string value)
| Other (str : string).

Section Store.

Variable databases_query :
  Notion.client -> string -> Z -> outcome response.
Variable pages_update_archived :
  Notion.client -> string -> bool -> outcome Notion.response.

(** [NotionStoryManager.get_story_pages] *)
Definition get_story_pages (self : NotionStoryManager) (limit : Z)
  : io (gmap string value) :=
  try_except
    (_ ← (if negb (PyStr.truthy (database_id self))
          then raise (Exn ValueError "Database ID is required")
          else mret tt);
     response ←
       (([DatabasesQuery (notion_client self) (database_id self) limit],
         databases_query (notion_client self) (database_id self) limit)
        : io response);
     match response with
     | Object d => mret d
     | Dict d => mret d
     | Other _ => mret {[ "results" := Pages [] ]}
     end)
    [ except isinstance_APIResponseError (fun e =>
        print ("Notion API error: " +:+ exn_str e);;
        raise e);
      except isinstance_Exception (fun e =>
        print ("Error retrieving story pages: " +:+ exn_str e);;
        raise e) ].

(** [NotionStoryManager.delete_story_page] *)
Definition delete_story_page (self : NotionStoryManager) (page_id : string)
  : io bool :=
  try_except
    (_ ←
       (([PagesUpdateArchived (notion_client self) page_id true],
         pages_update_archived (notion_client self) page_id true)
        : io Notion.response);
     mret true)
    [ except isinstance_APIResponseError (fun e =>
        print ("Notion API error: " +:+ exn_str e);;
        raise e);
      except isinstance_Exception (fun e =>
        print ("Error deleting story page: " +:+ exn_str e);;
        raise e) ].

End Store.

End Admin.

(** ** setup_notion.py *)

(** [check_env_vars], on the environment as [load_dotenv] leaves it. *)
Definition check_env_vars (env : environ) : list string :=
  let required_vars := ["NOTION_TOKEN"; "NOTION_DATABASE_ID"] in
  fold_left
    (fun missing_vars var =>
       if negb (truthy_option (env !! var)) then missing_vars ++ [var]
       else missing_vars)
    required_vars [].

(** ** Concrete inputs used below *)

(** A text of 1901 characters: ["a" * 1901]. *)
Definition long_text : string := PyStr.repeat "a" 1901.

(** An agent for the direct backend, as [__init__] builds it from an
    environment that sets only the key. *)
Definition direct_agent : IdeaGeneratorAgent :=
  {| api_type := "openai"; api_key := Some "sk-test"; model := "gpt-4o";
     api_base := None; api_version := None; deployment_name := None;
     client := OpenAI.OpenAI (Some "sk-test") |}.

(** The client constructors as the library has them: without an API key
    they raise. *)
Definition missing_key_error : exn :=
  Exn (OtherException "OpenAIError")
    "The api_key client option must be set either by passing api_key to the client or by setting the OPENAI_API_KEY environment variable".

Definition keyless_client_error (c : OpenAI.client) : option exn :=
  match c with
  | OpenAI.OpenAI None | OpenAI.AzureOpenAI None _ _ => Some missing_key_error
  | _ => None
  end.

(** A completion service that is unreachable. *)
Definition connection_error : exn :=
  Exn (OtherException "APIConnectionError") "Connection error.".

Definition unreachable_backend (c : OpenAI.client) (p : OpenAI.create_params)
  : outcome OpenAI.ChatCompletion := Raise connection_error.

(** A completion service that answers with one choice of the given
    content. *)
Definition answering_backend (content : option string)
  (c : OpenAI.client) (p : OpenAI.create_params)
  : outcome OpenAI.ChatCompletion :=
  Return {| OpenAI.choices :=
              [ {| OpenAI.message := {| OpenAI.content := content |} |} ] |}.

(** An environment that selects the gateway backend and leaves out the
    deployment name. *)
Definition azure_env_without_deployment : gmap string string :=
  {[ "OPENAI_API_TYPE" := "azure";
     "OPENAI_API_KEY" := "key";
     "OPENAI_API_BASE" := "https://example.openai.azure.com";
     "OPENAI_API_VERSION" := "2024-02-01" ]}.

Definition story_manager : NotionStoryManager :=
  {| notion_token := "secret_token";
     notion_client := {| Notion.auth := "secret_token" |};
     database_id := "db-1" |}.

(** A store that rejects every request. *)
Definition validation_error : exn := Exn APIResponseError "validation_error".

Definition rejecting_create (c : Notion.client) (p : Notion.create_params)
  : outcome Notion.response := Raise validation_error.

(** A store that accepts every update. *)
Definition accepting_update (c : Notion.client) (p : Notion.update_params)
  : outcome Notion.response := Return (Notion.Dict {[ "id" := Notion.page_id p ]}).

Definition cat_story : gmap string string :=
  {[ "prompt" := "A magical cat who can speak to plants";
     "ideas" := "1. The Whispering Fern";
     "story" := "Once upon a time." ]}.

Definition long_setting_story : gmap string string :=
  {[ "setting" := long_text ]}.

(** A completion service interrupted from outside. *)
Definition keyboard_interrupt : exn :=
  Exn (NonException "KeyboardInterrupt") EmptyString.

Definition interrupted_backend (c : OpenAI.client) (p : OpenAI.create_params)
  : outcome OpenAI.ChatCompletion := Raise keyboard_interrupt.

(** A completion service that answers without any choice. *)
Definition choiceless_backend (c : OpenAI.client) (p : OpenAI.create_params)
  : outcome OpenAI.ChatCompletion := Return {| OpenAI.choices := [] |}.

(** An agent for the gateway backend. *)
Definition azure_agent : IdeaGeneratorAgent :=
  {| api_type := "azure"; api_key := Some "key"; model := "gpt-4o";
     api_base := Some "https://example.openai.azure.com";
     api_version := Some "2024-02-01";
     deployment_name := Some "story-deployment";
     client := OpenAI.AzureOpenAI (Some "key") (Some "2024-02-01")
                 (Some "https://example.openai.azure.com") |}.

Definition notion_env : gmap string string :=
  {[ "NOTION_TOKEN" := "secret_token"; "NOTION_DATABASE_ID" := "db-env" ]}.

(** A manager whose database identifier was emptied after construction. *)
Definition manager_without_database : NotionStoryManager :=
  {| notion_token := "secret_token";
     notion_client := {| Notion.auth := "secret_token" |};
     database_id := EmptyString |}.

(** A store that rejects every query and every archiving. *)
Definition rejecting_query (c : Notion.client) (database_id : string)
  (page_size : Z) : outcome Admin.response := Raise validation_error.

Definition rejecting_archive (c : Notion.client) (page_id : string)
  (archived : bool) : outcome Notion.response := Raise validation_error.

(** A store that rejects every update. *)
Definition rejecting_update (c : Notion.client) (p : Notion.update_params)
  : outcome Notion.response := Raise validation_error.

(** A store that accepts every creation and answers with a dictionary. *)
Definition accepting_create (c : Notion.client) (p : Notion.create_params)
  : outcome Notion.response := Return (Notion.Dict {[ "id" := "page-1" ]}).

(** ** Lemmas on strings *)

Section StringLemmas.

Implicit Types (s t : string) (n : nat).

Lemma length_take n s :
  String.length (PyStr.take n s) = Nat.min n (String.length s).
Proof.
  revert s; induction n as [|n IH]; intros [|c s]; simpl; auto.
Qed.

Lemma take_all n s : (String.length s <= n)%nat -> PyStr.take n s = s.
Proof.
  revert s; induction n as [|n IH]; intros [|c s]; simpl; intros H;
    try reflexivity; try lia.
  f_equal. apply IH. lia.
Qed.

Lemma length_app s t :
  String.length (s +:+ t) = (String.length s + String.length t)%nat.
Proof. induction s as [|c s IH]; simpl; auto. Qed.

Lemma drop_app_length s t : PyStr.drop (String.length s) (s +:+ t) = t.
Proof. induction s as [|c s IH]; simpl; [destruct t; reflexivity | exact IH]. Qed.

Lemma take_app_length s t : PyStr.take (String.length s) (s +:+ t) = s.
Proof. induction s as [|c s IH]; simpl; [destruct t|]; congruence. Qed.

Lemma startswith_app s t : PyStr.startswith (s +:+ t) s = true.
Proof.
  unfold PyStr.startswith. apply bool_decide_eq_true, take_app_length.
Qed.

(** A slice with a stop inside the string has exactly that length. *)
Lemma len_slice_to s (k : Z) :
  0 <= k <= PyStr.len s -> PyStr.len (PyStr.slice_to s k) = k.
Proof.
  unfold PyStr.slice_to, PyStr.len. intros Hk.
  destruct (Z.ltb_spec k 0); [lia|].
  rewrite length_take. lia.
Qed.

Lemma slice_to_take s (k : Z) :
  0 <= k -> PyStr.slice_to s k = PyStr.take (Z.to_nat k) s.
Proof.
  unfold PyStr.slice_to, PyStr.len. intros Hk.
  destruct (Z.ltb_spec k 0); [lia|].
  destruct (Z.le_ge_cases k (Z.of_nat (String.length s))).
  - rewrite Z.min_l by lia. reflexivity.
  - rewrite Z.min_r by lia. rewrite Nat2Z.id.
    rewrite !take_all; auto; lia.
Qed.

Lemma len_app s t : PyStr.len (s +:+ t) = PyStr.len s + PyStr.len t.
Proof. unfold PyStr.len. rewrite length_app. lia. Qed.

Lemma len_slice_to_le s (k : Z) :
  0 <= k -> PyStr.len (PyStr.slice_to s k) <= k.
Proof.
  intros Hk. rewrite slice_to_take by lia. unfold PyStr.len.
  rewrite length_take. lia.
Qed.

End StringLemmas.

(** ** Truncation *)

Section Truncate.

Implicit Types (text : string) (m : Z).

Lemma truncate_short text m :
  PyStr.len text <= m -> _truncate_text text m = text.
Proof.
  intros H. unfold _truncate_text.
  destruct (Z.leb_spec (PyStr.len text) m); [reflexivity | lia].
Qed.

Lemma truncate_long text m :
  m < PyStr.len text ->
  _truncate_text text m = PyStr.slice_to text (m - 3) +:+ "...".
Proof.
  intros H. unfold _truncate_text.
  destruct (Z.leb_spec (PyStr.len text) m); [lia | reflexivity].
Qed.

(** With a limit of at least three, the result never exceeds it. *)
Lemma len_truncate_le text m :
  3 <= m -> PyStr.len (_truncate_text text m) <= m.
Proof.
  intros Hm. unfold _truncate_text.
  destruct (Z.leb_spec (PyStr.len text) m) as [H|H]; [exact H|].
  rewrite len_app.
  pose proof (len_slice_to_le text (m - 3) ltac:(lia)).
  change (PyStr.len "...") with 3. lia.
Qed.

End Truncate.

Lemma drop_app_of_length (s t : string) (n : nat) :
  String.length s = n -> PyStr.drop n (s +:+ t) = t.
Proof. intros <-. apply drop_app_length. Qed.

(** C2. Every string longer than 1900 characters is cut to exactly 1900
    characters: its first 1897 characters followed by ["..."], which
    are therefore the final three characters of the result. *)
Theorem truncate_text_over_limit (text : string) :
  1900 < PyStr.len text ->
  _truncate_text text default_max_length = PyStr.take 1897 text +:+ "..."
  /\ PyStr.len (_truncate_text text default_max_length) = 1900
  /\ PyStr.drop 1897 (_truncate_text text default_max_length) = "..."
  /\ PyStr.endswith (_truncate_text text default_max_length) "..." = true.
Proof.
  intros Hlong. unfold default_max_length.
  rewrite truncate_long by lia.
  change (1900 - 3) with 1897.
  assert (Hlen : PyStr.len (PyStr.slice_to text 1897) = 1897)
    by (apply len_slice_to; lia).
  rewrite slice_to_take in * by lia.
  change (Z.to_nat 1897) with 1897%nat in *.
  assert (Hnat : String.length (PyStr.take 1897 text) = 1897%nat)
    by (unfold PyStr.len in Hlen; lia).
  repeat split.
  - rewrite len_app, Hlen. reflexivity.
  - apply drop_app_of_length, Hnat.
  - unfold PyStr.endswith. apply bool_decide_eq_true.
    rewrite length_app, Hnat. simpl String.length.
    replace (1897 + 3 - 3)%nat with 1897%nat by lia.
    apply drop_app_of_length, Hnat.
Qed.

Lemma truncate_text_over_limit_witness :
  1900 < PyStr.len long_text
  /\ PyStr.len (_truncate_text long_text default_max_length) = 1900
  /\ PyStr.endswith (_truncate_text long_text default_max_length) "..." = true.
Proof.
  assert (H : 1900 < PyStr.len long_text) by (vm_compute; reflexivity).
  split; [exact H|].
  destruct (truncate_text_over_limit long_text H) as (_ & Hlen & _ & Hend).
  split; [exact Hlen | exact Hend].
Defined.

(** C8. Truncation at the default limit is idempotent: truncating a
    truncated string again changes nothing, so no second ellipsis is
    added. *)
Theorem truncate_text_idempotent (t : string) :
  _truncate_text (_truncate_text t default_max_length) default_max_length
  = _truncate_text t default_max_length.
Proof.
  apply truncate_short. apply len_truncate_le.
  unfold default_max_length. lia.
Qed.

(** ** Equations of the [io] monad *)

Section IoLaws.

Context {A B : Type}.

Implicit Types (t : trace) (e : exn) (f : A -> io B).

Lemma io_bind_return t (a : A) f :
  ((t, Return a) : io A) ≫= f = (t ++ (f a).1, (f a).2).
Proof. unfold mbind, io_bind. destruct (f a); reflexivity. Qed.

Lemma io_bind_raise t e f : ((t, Raise e) : io A) ≫= f = (t, Raise e).
Proof. reflexivity. Qed.

Lemma io_bind_mret (a : A) f : mret a ≫= f = f a.
Proof. unfold mret, io_ret, mbind, io_bind. destruct (f a); reflexivity. Qed.

Lemma io_bind_lift_return (a : A) f : lift (Return a) ≫= f = f a.
Proof. apply io_bind_mret. Qed.

(** An exception the first clause accepts runs that clause's handler. *)
Lemma try_except_first t e (test : exn -> bool) (h : exn -> io A)
    (clauses : list (except_clause A)) :
  test e = true ->
  try_except (t, Raise e) (except test h :: clauses)
  = (t ++ (h e).1, (h e).2).
Proof.
  intros Ht. unfold try_except, except. cbn [find_clause]. rewrite Ht.
  destruct (h e); reflexivity.
Qed.

(** An exception the first clause refuses is left to the other clauses. *)
Lemma try_except_next t e (test : exn -> bool) (h : exn -> io A)
    (clauses : list (except_clause A)) :
  test e = false ->
  try_except (t, Raise e) (except test h :: clauses)
  = try_except (t, Raise e) clauses.
Proof.
  intros Ht. unfold try_except, except. cbn [find_clause]. rewrite Ht.
  reflexivity.
Qed.

End IoLaws.

(** ** The idea stage *)

Section IdeaStage.

Context (backend :
  OpenAI.client -> OpenAI.create_params -> outcome OpenAI.ChatCompletion).

Implicit Types (self : IdeaGeneratorAgent) (prompt : string) (e : exn).

(** Formatting the idea template with [user_input] never raises. *)
Lemma format_idea_template prompt :
  exists s,
    format IDEA_GENERATOR_PROMPT_TEMPLATE {[ "user_input" := prompt ]}
    = Return s.
Proof.
  unfold IDEA_GENERATOR_PROMPT_TEMPLATE. cbn [format].
  rewrite lookup_singleton_eq. eauto.
Qed.

(** What the synchronous entry point does, by the answer of the
    service to the one request [p] it issues. *)
Lemma generate_idea_sync_spec self prompt :
  exists p,
    OpenAI.max_tokens p = 800
    /\ OpenAI.temperature p = temperature_0_9
    /\ OpenAI.model p =
         (if String.eqb (PyStr.lower (api_type self)) "azure"
          then str_of_option (deployment_name self) else model self)
    /\ generate_idea_sync backend self prompt =
       match backend (client self) p with
       | Return response =>
           match OpenAI.choices response with
           | choice :: _ =>
               ([ChatCompletionsCreate (client self) p],
                Return {[ "ideas" :=
                  match OpenAI.content (OpenAI.message choice) with
                  | Some c => if PyStr.truthy c then PyStr.strip c
                              else EmptyString
                  | None => EmptyString
                  end ]})
           | [] =>
               ([ChatCompletionsCreate (client self) p;
                 Print "Error generating ideas: list index out of range"],
                Return {[ "ideas" :=
                  "Error generating ideas: list index out of range" ]})
           end
       | Raise e =>
           if isinstance_Exception e then
             ([ChatCompletionsCreate (client self) p;
               Print ("Error generating ideas: " +:+ exn_str e)],
              Return {[ "ideas" := "Error generating ideas: " +:+ exn_str e ]})
           else ([ChatCompletionsCreate (client self) p], Raise e)
       end.
Proof.
  unfold generate_idea_sync.
  destruct (format_idea_template prompt) as [s ->].
  rewrite io_bind_lift_return.
  exists {| OpenAI.model :=
              if String.eqb (PyStr.lower (api_type self)) "azure"
              then str_of_option (deployment_name self) else model self;
            OpenAI.messages :=
              [ {| OpenAI.Param.role := "user"; OpenAI.Param.content := s |} ];
            OpenAI.max_tokens := 800;
            OpenAI.temperature := temperature_0_9 |}.
  split; [|split; [|split]]; [reflexivity .. |].
  destruct (String.eqb (PyStr.lower (api_type self)) "azure").
  all: unfold chat_create.
  all: match goal with
       | |- context [backend ?c ?p] => destruct (backend c p) as [response|e]
       end.
  all: try (destruct (OpenAI.choices response) as [|choice rest] eqn:Hc;
            rewrite io_bind_return, Hc; reflexivity).
  all: rewrite io_bind_raise;
       destruct (isinstance_Exception e) eqn:He;
       [ rewrite try_except_first by exact He; reflexivity
       | rewrite try_except_next by exact He; reflexivity ].
Qed.

(** Awaiting the asynchronous entry point runs the body of the
    synchronous one. *)
Lemma await_generate_idea self prompt :
  await (generate_idea backend self prompt)
  = generate_idea_sync backend self prompt.
Proof. reflexivity. Qed.

Lemma strip_if_truthy (c : string) :
  (if PyStr.truthy c then PyStr.strip c else EmptyString) = PyStr.strip c.
Proof. destruct c; reflexivity. Qed.

(** When the service raises an [Exception], the synchronous entry point
    reports it and returns the error text as the ideas. *)
Lemma generate_idea_sync_raise self prompt e :
  isinstance_Exception e = true ->
  (forall c p, backend c p = Raise e) ->
  exists p,
    generate_idea_sync backend self prompt
    = ([ChatCompletionsCreate (client self) p;
        Print ("Error generating ideas: " +:+ exn_str e)],
       Return {[ "ideas" := "Error generating ideas: " +:+ exn_str e ]}).
Proof.
  intros He Hb.
  destruct (generate_idea_sync_spec self prompt) as (p & _ & _ & _ & ->).
  exists p. rewrite Hb, He. reflexivity.
Qed.

(** When the service answers, the synchronous entry point returns the
    stripped content of the first choice and prints nothing. *)
Lemma generate_idea_sync_return self prompt response choice rest :
  OpenAI.choices response = choice :: rest ->
  (forall c p, backend c p = Return response) ->
  exists p,
    generate_idea_sync backend self prompt
    = ([ChatCompletionsCreate (client self) p],
       Return {[ "ideas" :=
         PyStr.strip
           (default EmptyString (OpenAI.content (OpenAI.message choice))) ]}).
Proof.
  intros Hc Hb.
  destruct (generate_idea_sync_spec self prompt) as (p & _ & _ & _ & ->).
  exists p. rewrite Hb, Hc.
  destruct (OpenAI.content (OpenAI.message choice)) as [c|]; simpl.
  - rewrite strip_if_truthy. reflexivity.
  - reflexivity.
Qed.

End IdeaStage.

Section IdeaStageProperties.

Context (client_error : OpenAI.client -> option exn).
Context (backend :
  OpenAI.client -> OpenAI.create_params -> outcome OpenAI.ChatCompletion).

Implicit Types (self : IdeaGeneratorAgent) (prompt : string) (e : exn).

(** C1. When the completion call raises an error, neither entry point
    lets it through: each returns the state delta whose [ideas] is
    "Error generating ideas: " followed by the message of the error. *)
Theorem generate_idea_error_is_data self prompt e :
  isinstance_Exception e = true ->
  (forall c p, backend c p = Raise e) ->
  (generate_idea_sync backend self prompt).2
    = Return {[ "ideas" := "Error generating ideas: " +:+ exn_str e ]}
  /\ (await (generate_idea backend self prompt)).2
    = Return {[ "ideas" := "Error generating ideas: " +:+ exn_str e ]}
  /\ PyStr.startswith ("Error generating ideas: " +:+ exn_str e)
       "Error generating ideas: " = true.
Proof.
  intros He Hb. rewrite await_generate_idea.
  destruct (generate_idea_sync_raise backend self prompt e He Hb) as [p ->].
  split; [reflexivity|]. split; [reflexivity|].
  apply startswith_app.
Qed.

(** C6. On a successful call the ideas are the stripped content of the
    first choice and nothing is reported; content that is empty or
    [None] gives the empty string, which no failing call ever gives. *)
Theorem generate_idea_success self prompt content rest :
  (forall c p,
     backend c p =
     Return {| OpenAI.choices :=
       {| OpenAI.message := {| OpenAI.content := content |} |} :: rest |}) ->
  (exists p,
     generate_idea_sync backend self prompt
     = ([ChatCompletionsCreate (client self) p],
        Return {[ "ideas" := PyStr.strip (default EmptyString content) ]}))
  /\ (content = None \/ content = Some EmptyString ->
      (generate_idea_sync backend self prompt).2
      = Return {[ "ideas" := EmptyString ]})
  /\ (forall failing self' prompt' e,
        isinstance_Exception e = true ->
        (forall c p, failing c p = Raise e) ->
        (generate_idea_sync failing self' prompt').2
        <> Return {[ "ideas" := EmptyString ]}).
Proof.
  intros Hb.
  destruct (generate_idea_sync_return backend self prompt
              {| OpenAI.choices :=
                   {| OpenAI.message := {| OpenAI.content := content |} |}
                   :: rest |}
              {| OpenAI.message := {| OpenAI.content := content |} |}
              rest eq_refl Hb)
    as [p Hp]; simpl in Hp.
  split; [exists p; exact Hp|]. split.
  - rewrite Hp. intros [-> | ->]; reflexivity.
  - intros failing self' prompt' e He Hf Heq.
    destruct (generate_idea_sync_spec failing self' prompt')
      as (p' & _ & _ & _ & Hs).
    rewrite Hs, Hf, He in Heq. cbn [snd] in Heq.
    assert (Hm : ({[ "ideas" := "Error generating ideas: " +:+ exn_str e ]}
                  : gmap string string) !! "ideas"
                 = ({[ "ideas" := EmptyString ]} : gmap string string)
                   !! "ideas") by congruence.
    rewrite !lookup_singleton_eq in Hm. discriminate Hm.
Qed.

(** C7. Awaiting [generate_idea] gives what [generate_idea_sync] gives,
    trace and result alike, whatever the service answers; each issues
    one request, the same one, with the fixed token budget and
    temperature. *)
Theorem generate_idea_async_same_as_sync self prompt :
  await (generate_idea backend self prompt)
  = generate_idea_sync backend self prompt
  /\ exists p,
       requests (generate_idea_sync backend self prompt).1
       = [ChatCompletionsCreate (client self) p]
       /\ requests (await (generate_idea backend self prompt)).1
          = [ChatCompletionsCreate (client self) p]
       /\ OpenAI.max_tokens p = 800
       /\ OpenAI.temperature p = temperature_0_9.
Proof.
  split; [apply await_generate_idea|].
  rewrite await_generate_idea.
  destruct (generate_idea_sync_spec backend self prompt) as (p & Hm & Ht & _ & ->).
  exists p. split; [|split; [|split]]; [| | exact Hm | exact Ht].
  all: destruct (backend (client self) p) as [response|e];
       [ destruct (OpenAI.choices response); reflexivity
       | destruct (isinstance_Exception e); reflexivity ].
Qed.

(** C5. With [api_type] "azure" and one of [api_base], [api_version],
    [deployment_name] missing (or empty), construction raises the
    configuration error at once: no event, and so no request, comes
    before it, in the constructor and in the node that calls it. *)
Theorem azure_requires_full_configuration (env : gmap string string)
    (kind : string) :
  env !! "OPENAI_API_TYPE" = Some kind ->
  PyStr.lower kind = "azure" ->
  truthy_option (env !! "OPENAI_API_BASE") = false
  \/ truthy_option (env !! "OPENAI_API_VERSION") = false
  \/ truthy_option (env !! "OPENAI_DEPLOYMENT_NAME") = false ->
  IdeaGeneratorAgent__init__ client_error env
  = ([], Raise (Exn RuntimeError "Missing Azure OpenAI configuration in .env"))
  /\ forall state,
       ideaAgentNode client_error backend env state
       = ([], Raise (Exn RuntimeError
                      "Missing Azure OpenAI configuration in .env")).
Proof.
  intros Hkind Hazure Hmissing.
  assert (Hinit : IdeaGeneratorAgent__init__ client_error env
    = ([], Raise (Exn RuntimeError
                    "Missing Azure OpenAI configuration in .env"))).
  { unfold IdeaGeneratorAgent__init__, getenv_default.
    rewrite Hkind. cbn [default from_option id]. rewrite Hazure.
    replace (String.eqb "azure" "azure") with true by reflexivity.
    destruct Hmissing as [H | [H | H]]; rewrite H;
      rewrite ?andb_false_r; reflexivity. }
  split; [exact Hinit|].
  intros state. unfold ideaAgentNode. rewrite Hinit. reflexivity.
Qed.

End IdeaStageProperties.

Lemma generate_idea_error_is_data_witness :
  (generate_idea_sync unreachable_backend direct_agent "a cat").2
    = Return {[ "ideas" := "Error generating ideas: Connection error." ]}
  /\ (await (generate_idea unreachable_backend direct_agent "a cat")).2
    = Return {[ "ideas" := "Error generating ideas: Connection error." ]}.
Proof.
  destruct (generate_idea_error_is_data unreachable_backend direct_agent
              "a cat" connection_error) as (Hsync & Hasync & _).
  - reflexivity.
  - intros c p. reflexivity.
  - split; [exact Hsync | exact Hasync].
Defined.

Lemma generate_idea_success_witness :
  (generate_idea_sync (answering_backend (Some EmptyString))
     direct_agent "a cat").2
  = Return {[ "ideas" := EmptyString ]}.
Proof.
  destruct (generate_idea_success (answering_backend (Some EmptyString))
              direct_agent "a cat" (Some EmptyString) [])
    as (_ & Hempty & _).
  - intros c p. reflexivity.
  - apply Hempty. right. reflexivity.
Defined.

Lemma azure_requires_full_configuration_witness :
  IdeaGeneratorAgent__init__ keyless_client_error azure_env_without_deployment
  = ([], Raise (Exn RuntimeError "Missing Azure OpenAI configuration in .env")).
Proof.
  apply (azure_requires_full_configuration keyless_client_error
           unreachable_backend azure_env_without_deployment "azure").
  - reflexivity.
  - reflexivity.
  - right. right. reflexivity.
Defined.

(** ** The persistence adapter *)

Section PersistenceAdapter.

Context (store_create :
  Notion.client -> Notion.create_params -> outcome Notion.response).
Context (store_update :
  Notion.client -> Notion.update_params -> outcome Notion.response).

Implicit Types (self : NotionStoryManager) (e : exn).
Implicit Types (story_data : gmap string string).

(** What [create_story_page] does, by the answer of the store to the one
    request it issues. *)
Lemma create_story_page_spec self story_data :
  let p := {| Notion.create_parent :=
                {| Notion.database_id := database_id self |};
              Notion.create_properties :=
                create_story_page_properties story_data;
              Notion.children := create_story_page_children story_data |} in
  create_story_page store_create self story_data =
  match store_create (notion_client self) p with
  | Return response =>
      ([PagesCreate (notion_client self) p], Return (response_to_dict response))
  | Raise e =>
      if isinstance_APIResponseError e then
        ([PagesCreate (notion_client self) p;
          Print ("Notion API error: " +:+ exn_str e)], Raise e)
      else if isinstance_Exception e then
        ([PagesCreate (notion_client self) p;
          Print ("Error creating story page: " +:+ exn_str e)], Raise e)
      else ([PagesCreate (notion_client self) p], Raise e)
  end.
Proof.
  intros p. unfold create_story_page, pages_create. fold p.
  destruct (store_create (notion_client self) p) as [response|e].
  - rewrite io_bind_return. reflexivity.
  - rewrite io_bind_raise.
    destruct (isinstance_APIResponseError e) eqn:Ha.
    + rewrite try_except_first by exact Ha. reflexivity.
    + rewrite try_except_next by exact Ha.
      destruct (isinstance_Exception e) eqn:He.
      * rewrite try_except_first by exact He. reflexivity.
      * rewrite try_except_next by exact He. reflexivity.
Qed.

(** What [update_story_page] does, likewise. *)
Lemma update_story_page_spec self (page_id : string) story_data :
  let p := {| Notion.page_id := page_id;
              Notion.update_properties :=
                update_story_page_properties story_data |} in
  update_story_page store_update self page_id story_data =
  match store_update (notion_client self) p with
  | Return response =>
      ([PagesUpdate (notion_client self) p], Return (response_to_dict response))
  | Raise e =>
      if isinstance_APIResponseError e then
        ([PagesUpdate (notion_client self) p;
          Print ("Notion API error: " +:+ exn_str e)], Raise e)
      else if isinstance_Exception e then
        ([PagesUpdate (notion_client self) p;
          Print ("Error updating story page: " +:+ exn_str e)], Raise e)
      else ([PagesUpdate (notion_client self) p], Raise e)
  end.
Proof.
  intros p. unfold update_story_page, pages_update. fold p.
  destruct (store_update (notion_client self) p) as [response|e].
  - rewrite io_bind_return. reflexivity.
  - rewrite io_bind_raise.
    destruct (isinstance_APIResponseError e) eqn:Ha.
    + rewrite try_except_first by exact Ha. reflexivity.
    + rewrite try_except_next by exact Ha.
      destruct (isinstance_Exception e) eqn:He.
      * rewrite try_except_first by exact He. reflexivity.
      * rewrite try_except_next by exact He. reflexivity.
Qed.

(** [create_story_page] issues exactly one request, whatever the store
    answers. *)
Lemma create_story_page_requests self story_data :
  requests (create_story_page store_create self story_data).1 =
  [PagesCreate (notion_client self)
     {| Notion.create_parent :=
          {| Notion.database_id := database_id self |};
        Notion.create_properties := create_story_page_properties story_data;
        Notion.children := create_story_page_children story_data |}].
Proof.
  rewrite create_story_page_spec.
  destruct (store_create _ _) as [response|e]; [reflexivity|].
  destruct (isinstance_APIResponseError e); [reflexivity|].
  destruct (isinstance_Exception e); reflexivity.
Qed.

End PersistenceAdapter.

(** The keys that the conditional updates of [create_story_page] may set
    leave the title and the status alone. *)
Lemma create_story_page_properties_title story_data :
  create_story_page_properties story_data !! "Title"
  = Some (Notion.title
            [ text_item
                (PyStr.slice_to
                   (default "Untitled Story" (story_data !! "prompt")) 100) ]).
Proof.
  unfold create_story_page_properties.
  repeat case_match; simplify_map_eq; reflexivity.
Qed.

Lemma create_story_page_properties_status story_data :
  create_story_page_properties story_data !! "Status"
  = Some (Notion.select "Generated").
Proof.
  unfold create_story_page_properties.
  repeat case_match; simplify_map_eq; reflexivity.
Qed.

(** Every text that [create_story_page] puts into its request, in the
    properties and in the children, has at most 1900 characters. *)
Lemma create_story_page_texts_within_limit (self : NotionStoryManager)
    (story_data : gmap string string) :
  submitted_texts_ok 1900
    {| Notion.create_parent := {| Notion.database_id := database_id self |};
       Notion.create_properties := create_story_page_properties story_data;
       Notion.children := create_story_page_children story_data |}.
Proof.
  assert (Htrunc : forall s,
            PyStr.len (_truncate_text s default_max_length) <= 1900).
  { intros s. apply (len_truncate_le s 1900). lia. }
  assert (Htitle : forall s, PyStr.len (PyStr.slice_to s 100) <= 1900).
  { intros s. pose proof (len_slice_to_le s 100). lia. }
  split; cbn [Notion.create_properties Notion.children].
  - unfold create_story_page_properties.
    repeat case_match.
    all: repeat (apply map_Forall_insert_2;
                 [cbn; repeat constructor; auto|]).
    all: apply map_Forall_empty.
  - unfold create_story_page_children.
    repeat case_match.
    all: repeat (apply Forall_app; split).
    all: repeat (apply Forall_cons; split); try apply Forall_nil.
    all: cbn; repeat constructor; auto.
    all: vm_compute; discriminate.
Qed.

Section PersistenceProperties.

Context (store_create :
  Notion.client -> Notion.create_params -> outcome Notion.response).

Implicit Types (self : NotionStoryManager) (e : exn).
Implicit Types (story_data : gmap string string).

(** C3, as the code has it. When the store call fails, [create_story_page]
    makes its one request, reports the failure on the output in one
    line, "Notion API error: " and the message for an
    [APIResponseError], "Error creating story page: " and the message
    for any other [Exception], nothing for an exception that is not an
    [Exception], and raises the same exception again to its caller: it
    returns no page data. *)
Theorem create_story_page_reraises self story_data e :
  (forall c p, store_create c p = Raise e) ->
  (create_story_page store_create self story_data).2 = Raise e
  /\ (create_story_page store_create self story_data).1
     = PagesCreate (notion_client self)
         {| Notion.create_parent :=
              {| Notion.database_id := database_id self |};
            Notion.create_properties :=
              create_story_page_properties story_data;
            Notion.children := create_story_page_children story_data |}
       :: (if isinstance_APIResponseError e
           then [Print ("Notion API error: " +:+ exn_str e)]
           else if isinstance_Exception e
           then [Print ("Error creating story page: " +:+ exn_str e)]
           else []).
Proof.
  intros Hfail. rewrite create_story_page_spec, Hfail.
  destruct (isinstance_APIResponseError e); [split; reflexivity|].
  destruct (isinstance_Exception e); split; reflexivity.
Qed.

(** C9, as the code has it. The title that [create_story_page] submits
    is the first 100 characters of [story_data["prompt"]] when the key is
    there and "Untitled Story" when it is not; either way it has at most
    100 characters. *)
Theorem create_story_page_title self story_data :
  exists p t,
    requests (create_story_page store_create self story_data).1
    = [PagesCreate (notion_client self) p]
    /\ Notion.create_properties p !! "Title"
       = Some (Notion.title [ text_item t ])
    /\ t = match story_data !! "prompt" with
           | Some prompt => PyStr.slice_to prompt 100
           | None => "Untitled Story"
           end
    /\ PyStr.len t <= 100.
Proof.
  eexists _, _. split; [apply create_story_page_requests|].
  split; [apply create_story_page_properties_title|].
  split.
  - destruct (story_data !! "prompt"); reflexivity.
  - apply len_slice_to_le. lia.
Qed.

(** C10. Whatever [story_data] holds, the one request of
    [create_story_page] sets the property [Status] to "Generated". *)
Theorem create_story_page_status_generated self story_data :
  exists p,
    requests (create_story_page store_create self story_data).1
    = [PagesCreate (notion_client self) p]
    /\ Notion.create_properties p !! "Status"
       = Some (Notion.select "Generated").
Proof.
  eexists. split; [apply create_story_page_requests|].
  apply create_story_page_properties_status.
Qed.

End PersistenceProperties.

Lemma create_story_page_reraises_witness :
  (create_story_page rejecting_create story_manager cat_story).2
  = Raise validation_error
  /\ (create_story_page rejecting_create story_manager cat_story).1
     = [PagesCreate (notion_client story_manager)
          {| Notion.create_parent :=
               {| Notion.database_id := database_id story_manager |};
             Notion.create_properties :=
               create_story_page_properties cat_story;
             Notion.children := create_story_page_children cat_story |};
        Print "Notion API error: validation_error"].
Proof.
  apply (create_story_page_reraises rejecting_create story_manager cat_story
           validation_error).
  intros c p. reflexivity.
Defined.

(** C3, as the specification states it, fails: with a store that rejects the
    request, [create_story_page] does not return page data without an
    identifier; it raises. *)
Lemma create_story_page_failure_not_data :
  ~ exists page : gmap string string,
      (create_story_page rejecting_create story_manager cat_story).2
      = Return page
      /\ page !! "id" = None.
Proof.
  intros (page & Hret & _).
  rewrite create_story_page_spec in Hret. discriminate Hret.
Qed.

(** C9, as the specification states it, fails: for a [story_data] without the
    key [prompt] the title is not a prefix of any prompt of the input,
    it is the fallback text. *)
Lemma create_story_page_title_without_prompt :
  create_story_page_properties ∅ !! "Title"
  = Some (Notion.title [ text_item "Untitled Story" ])
  /\ ~ exists prompt : string,
        (∅ : gmap string string) !! "prompt" = Some prompt
        /\ create_story_page_properties ∅ !! "Title"
           = Some (Notion.title [ text_item (PyStr.slice_to prompt 100) ]).
Proof.
  split.
  - rewrite create_story_page_properties_title. reflexivity.
  - intros (prompt & Hp & _). rewrite lookup_empty in Hp. discriminate Hp.
Qed.

(** C4 at [update_story_page]: a setting of 1901 characters is submitted
    as it is, 1901 characters long, while [create_story_page] submits the
    same setting cut to 1900. *)
Theorem update_story_page_submits_untruncated :
  PyStr.len long_text = 1901
  /\ (exists p,
        (update_story_page accepting_update story_manager "page-1"
           long_setting_story).1
        = [PagesUpdate (notion_client story_manager) p]
        /\ Notion.update_properties p !! "Setting"
           = Some (Notion.rich_text [ text_item long_text ]))
  /\ create_story_page_properties long_setting_story !! "Setting"
     = Some (Notion.rich_text
               [ text_item (_truncate_text long_text default_max_length) ])
  /\ PyStr.len (_truncate_text long_text default_max_length) = 1900.
Proof.
  split; [vm_compute; reflexivity|]. split; [|split].
  - eexists. split.
    + rewrite update_story_page_spec. reflexivity.
    + cbn [Notion.update_properties].
      unfold update_story_page_properties, long_setting_story.
      simplify_map_eq. reflexivity.
  - unfold create_story_page_properties, long_setting_story.
    simplify_map_eq. reflexivity.
  - vm_compute. reflexivity.
Qed.

(** ** Further properties of truncation *)

Section TruncateAnyLimit.

Implicit Types (text : string) (m : Z).

(** X1. With a limit of at least three, the result has the length of the
    text or the limit, whichever is smaller. *)
Theorem truncate_text_length text m :
  3 <= m ->
  PyStr.len (_truncate_text text m) = Z.min (PyStr.len text) m.
Proof.
  intros Hm. unfold _truncate_text.
  destruct (Z.leb_spec (PyStr.len text) m) as [H|H]; [lia|].
  rewrite len_app, len_slice_to by lia.
  change (PyStr.len "...") with 3. lia.
Qed.

(** X2. Truncation is idempotent at every limit of at least three. *)
Theorem truncate_text_idempotent_any_limit text m :
  3 <= m ->
  _truncate_text (_truncate_text text m) m = _truncate_text text m.
Proof.
  intros Hm. apply truncate_short. apply len_truncate_le. exact Hm.
Qed.

(** X3. Below three the limit is not kept: a text longer than such a
    limit comes back longer than the limit, with at least the three
    characters of the ellipsis. *)
Theorem truncate_text_small_limit_overflows text m :
  m < 3 -> m < PyStr.len text ->
  m < PyStr.len (_truncate_text text m)
  /\ 3 <= PyStr.len (_truncate_text text m).
Proof.
  intros Hm Hlong. rewrite truncate_long by exact Hlong.
  rewrite len_app. change (PyStr.len "...") with 3.
  assert (0 <= PyStr.len (PyStr.slice_to text (m - 3)))
    by (unfold PyStr.len; lia).
  lia.
Qed.

(** X4. A text over a limit of at least three keeps its first
    [m - 3] characters and ends with the ellipsis. *)
Theorem truncate_text_keeps_prefix text m :
  3 <= m -> m < PyStr.len text ->
  PyStr.slice_to (_truncate_text text m) (m - 3)
  = PyStr.slice_to text (m - 3)
  /\ PyStr.endswith (_truncate_text text m) "..." = true
  /\ _truncate_text text m <> text.
Proof.
  intros Hm Hlong.
  assert (Hlen : PyStr.len (PyStr.slice_to text (m - 3)) = m - 3)
    by (apply len_slice_to; lia).
  rewrite truncate_long by exact Hlong.
  split; [|split].
  - rewrite (slice_to_take (_ +:+ _)) by lia.
    replace (Z.to_nat (m - 3))
      with (String.length (PyStr.slice_to text (m - 3)))
      by (unfold PyStr.len in Hlen; lia).
    apply take_app_length.
  - unfold PyStr.endswith. apply bool_decide_eq_true.
    rewrite length_app. simpl String.length.
    replace (String.length (PyStr.slice_to text (m - 3)) + 3 - 3)%nat
      with (String.length (PyStr.slice_to text (m - 3))) by lia.
    apply drop_app_length.
  - intros Heq. apply (f_equal PyStr.len) in Heq.
    rewrite len_app, Hlen in Heq. change (PyStr.len "...") with 3 in Heq.
    lia.
Qed.

End TruncateAnyLimit.

Lemma truncate_text_length_witness :
  PyStr.len (_truncate_text "abcdefghij" 5) = Z.min (PyStr.len "abcdefghij") 5.
Proof. apply truncate_text_length. lia. Defined.

Lemma truncate_text_idempotent_any_limit_witness :
  _truncate_text (_truncate_text "abcdefghij" 5) 5
  = _truncate_text "abcdefghij" 5.
Proof. apply truncate_text_idempotent_any_limit. lia. Defined.

Lemma truncate_text_small_limit_overflows_witness :
  2 < PyStr.len (_truncate_text "abcdef" 2)
  /\ 3 <= PyStr.len (_truncate_text "abcdef" 2).
Proof.
  apply truncate_text_small_limit_overflows; [lia | vm_compute; reflexivity].
Defined.

Lemma truncate_text_keeps_prefix_witness :
  PyStr.slice_to (_truncate_text "abcdefghij" 5) (5 - 3)
  = PyStr.slice_to "abcdefghij" (5 - 3)
  /\ PyStr.endswith (_truncate_text "abcdefghij" 5) "..." = true
  /\ _truncate_text "abcdefghij" 5 <> "abcdefghij".
Proof.
  apply truncate_text_keeps_prefix; [lia | vm_compute; reflexivity].
Defined.

(** ** Stripping *)

Section Strip.

Implicit Types (s : string) (c : ascii).

(** What [lstrip] leaves is empty or starts with a character that is not
    white space. *)
Lemma lstrip_head s :
  PyStr.lstrip s = EmptyString
  \/ exists c r, PyStr.lstrip s = String c r /\ PyStr.isspace c = false.
Proof.
  induction s as [|c s IH]; [left; reflexivity|].
  cbn [PyStr.lstrip]. destruct (PyStr.isspace c) eqn:Hc; [exact IH|].
  right. eauto.
Qed.

Lemma rstrip_rstrip s : PyStr.rstrip (PyStr.rstrip s) = PyStr.rstrip s.
Proof.
  induction s as [|c s IH]; [reflexivity|].
  cbn [PyStr.rstrip].
  destruct (PyStr.rstrip s) as [|d r] eqn:Hr.
  - destruct (PyStr.isspace c) eqn:Hc; [reflexivity|].
    cbn [PyStr.rstrip]. rewrite Hc. reflexivity.
  - change (PyStr.rstrip (String c (String d r)))
      with (match PyStr.rstrip (String d r) with
            | EmptyString => if PyStr.isspace c then EmptyString
                             else String c EmptyString
            | String d' r' => String c (String d' r')
            end).
    rewrite IH. reflexivity.
Qed.

(** [rstrip] keeps a first character that is not white space. *)
Lemma rstrip_head c r :
  PyStr.isspace c = false ->
  exists r', PyStr.rstrip (String c r) = String c r'.
Proof.
  intros Hc. cbn [PyStr.rstrip].
  destruct (PyStr.rstrip r); [rewrite Hc|]; eauto.
Qed.

Lemma lstrip_strip s : PyStr.lstrip (PyStr.strip s) = PyStr.strip s.
Proof.
  unfold PyStr.strip.
  destruct (lstrip_head s) as [-> | (c & r & -> & Hc)]; [reflexivity|].
  destruct (rstrip_head c r Hc) as [r' ->].
  cbn [PyStr.lstrip]. rewrite Hc. reflexivity.
Qed.

Lemma rstrip_strip s : PyStr.rstrip (PyStr.strip s) = PyStr.strip s.
Proof. unfold PyStr.strip. apply rstrip_rstrip. Qed.

End Strip.

(** ** Further properties of the idea stage *)

Section IdeaStageFurther.

Context (backend :
  OpenAI.client -> OpenAI.create_params -> outcome OpenAI.ChatCompletion).

Implicit Types (self : IdeaGeneratorAgent) (prompt : string) (e : exn).

(** X5. The ideas of a successful call carry no white space at either
    end: stripping them again, on the left or on the right, changes
    nothing. *)
Theorem generate_idea_ideas_are_stripped self prompt response choice rest :
  (forall c p, backend c p = Return response) ->
  OpenAI.choices response = choice :: rest ->
  exists ideas,
    (generate_idea_sync backend self prompt).2
    = Return {[ "ideas" := ideas ]}
    /\ PyStr.lstrip ideas = ideas
    /\ PyStr.rstrip ideas = ideas.
Proof.
  intros Hb Hc.
  destruct (generate_idea_sync_return backend self prompt response choice
              rest Hc Hb) as [p ->].
  eexists. split; [reflexivity|].
  split; [apply lstrip_strip | apply rstrip_strip].
Qed.

(** X6. A completion without any choice is handled like a failure of the
    call: the index error is caught, reported, and becomes the ideas. *)
Theorem generate_idea_no_choice self prompt response :
  (forall c p, backend c p = Return response) ->
  OpenAI.choices response = [] ->
  exists p,
    generate_idea_sync backend self prompt
    = ([ChatCompletionsCreate (client self) p;
        Print "Error generating ideas: list index out of range"],
       Return {[ "ideas" :=
                   "Error generating ideas: list index out of range" ]}).
Proof.
  intros Hb Hc.
  destruct (generate_idea_sync_spec backend self prompt)
    as (p & _ & _ & _ & ->).
  exists p. rewrite Hb, Hc. reflexivity.
Qed.

(** X7. Whatever the service does, the stage returns a delta whose only
    key is [ideas], or lets through an exception of the service that is
    not an [Exception]; it never raises an [Exception] itself. *)
Theorem generate_idea_sync_owns_ideas_only self prompt :
  match (generate_idea_sync backend self prompt).2 with
  | Return delta => dom delta = ({[ "ideas" ]} : gset string)
  | Raise e =>
      isinstance_Exception e = false
      /\ exists p, backend (client self) p = Raise e
  end.
Proof.
  destruct (generate_idea_sync_spec backend self prompt)
    as (p & _ & _ & _ & ->).
  destruct (backend (client self) p) as [response|e] eqn:Hb.
  - destruct (OpenAI.choices response); cbn [snd]; apply dom_singleton_L.
  - destruct (isinstance_Exception e) eqn:He; cbn [snd].
    + apply dom_singleton_L.
    + split; [exact He|]. exists p. exact Hb.
Qed.

(** X8. An exception of the service that is not an [Exception] passes
    through the stage unchanged, and nothing is printed. *)
Theorem generate_idea_sync_lets_non_exception_through self prompt e :
  isinstance_Exception e = false ->
  (forall c p, backend c p = Raise e) ->
  exists p,
    generate_idea_sync backend self prompt
    = ([ChatCompletionsCreate (client self) p], Raise e).
Proof.
  intros He Hb.
  destruct (generate_idea_sync_spec backend self prompt)
    as (p & _ & _ & _ & ->).
  exists p. rewrite Hb, He. reflexivity.
Qed.

End IdeaStageFurther.

Lemma string_app_empty_r (s : string) : s +:+ EmptyString = s.
Proof.
  induction s as [|c s IH]; [reflexivity|].
  change (String c (s +:+ EmptyString) = String c s).
  rewrite IH. reflexivity.
Qed.

(** X9. The one request of the stage does not depend on the service: it
    has a single message of role "user" whose content is the prompt,
    unchanged, between two fixed texts, the first of which ends with
    "User Input: "; the model is the deployment name for the gateway
    backend and the configured model otherwise. *)
Theorem generate_idea_sync_request :
  exists pre post : string,
    PyStr.endswith pre "User Input: " = true
    /\ forall backend (self : IdeaGeneratorAgent) (prompt : string),
         requests (generate_idea_sync backend self prompt).1
         = [ChatCompletionsCreate (client self)
              {| OpenAI.model :=
                   if String.eqb (PyStr.lower (api_type self)) "azure"
                   then str_of_option (deployment_name self)
                   else model self;
                 OpenAI.messages :=
                   [ {| OpenAI.Param.role := "user";
                        OpenAI.Param.content := pre +:+ prompt +:+ post |} ];
                 OpenAI.max_tokens := 800;
                 OpenAI.temperature := temperature_0_9 |}].
Proof.
  eexists _, _. split; cycle 1.
  - intros backend self prompt.
    unfold generate_idea_sync, IDEA_GENERATOR_PROMPT_TEMPLATE.
    cbn [format]. rewrite lookup_singleton_eq. cbn [format].
    rewrite io_bind_lift_return, string_app_empty_r.
    destruct (String.eqb (PyStr.lower (api_type self)) "azure").
    all: unfold chat_create.
    all: destruct (backend (client self) _) as [response|e].
    all: try (destruct (OpenAI.choices response) as [|choice rest] eqn:Hc;
              rewrite io_bind_return, Hc; reflexivity).
    all: rewrite io_bind_raise;
         destruct (isinstance_Exception e) eqn:He;
         [ rewrite try_except_first by exact He; reflexivity
         | rewrite try_except_next by exact He; reflexivity ].
  - vm_compute. reflexivity.
Qed.

Lemma generate_idea_ideas_are_stripped_witness :
  exists ideas,
    (generate_idea_sync (answering_backend (Some "  1. The Whispering Fern "))
       direct_agent "a cat").2
    = Return {[ "ideas" := ideas ]}
    /\ PyStr.lstrip ideas = ideas
    /\ PyStr.rstrip ideas = ideas.
Proof.
  apply (generate_idea_ideas_are_stripped
           (answering_backend (Some "  1. The Whispering Fern "))
           direct_agent "a cat"
           {| OpenAI.choices :=
                [ {| OpenAI.message :=
                       {| OpenAI.content :=
                            Some "  1. The Whispering Fern " |} |} ] |}
           {| OpenAI.message :=
                {| OpenAI.content := Some "  1. The Whispering Fern " |} |}
           []).
  - intros c p. reflexivity.
  - reflexivity.
Defined.

Lemma generate_idea_no_choice_witness :
  exists p,
    generate_idea_sync choiceless_backend azure_agent "a cat"
    = ([ChatCompletionsCreate (client azure_agent) p;
        Print "Error generating ideas: list index out of range"],
       Return {[ "ideas" :=
                   "Error generating ideas: list index out of range" ]}).
Proof.
  apply (generate_idea_no_choice choiceless_backend azure_agent "a cat"
           {| OpenAI.choices := [] |}).
  - intros c p. reflexivity.
  - reflexivity.
Defined.

Lemma generate_idea_sync_lets_non_exception_through_witness :
  exists p,
    generate_idea_sync interrupted_backend direct_agent "a cat"
    = ([ChatCompletionsCreate (client direct_agent) p],
       Raise keyboard_interrupt).
Proof.
  apply (generate_idea_sync_lets_non_exception_through interrupted_backend
           direct_agent "a cat" keyboard_interrupt).
  - reflexivity.
  - intros c p. reflexivity.
Defined.

(** ** Construction of the agent and the workflow nodes *)

Section Construction.

Context (client_error : OpenAI.client -> option exn).

Implicit Types (env : gmap string string).

(** The client that the constructor asks the library for. *)
Lemma IdeaGeneratorAgent__init__spec env :
  IdeaGeneratorAgent__init__ client_error env =
  let kind := getenv_default env "OPENAI_API_TYPE" "openai" in
  let c :=
    if String.eqb (PyStr.lower kind) "azure"
    then OpenAI.AzureOpenAI (env !! "OPENAI_API_KEY")
           (env !! "OPENAI_API_VERSION") (env !! "OPENAI_API_BASE")
    else OpenAI.OpenAI (env !! "OPENAI_API_KEY") in
  if String.eqb (PyStr.lower kind) "azure"
     && negb (truthy_option (env !! "OPENAI_API_BASE")
              && truthy_option (env !! "OPENAI_API_VERSION")
              && truthy_option (env !! "OPENAI_DEPLOYMENT_NAME"))
  then ([], Raise (Exn RuntimeError
                     "Missing Azure OpenAI configuration in .env"))
  else
    match client_error c with
    | Some e => ([], Raise e)
    | None =>
        ([], Return {| api_type := kind;
                       api_key := env !! "OPENAI_API_KEY";
                       model := getenv_default env "OPENAI_MODEL" "gpt-4o";
                       api_base := env !! "OPENAI_API_BASE";
                       api_version := env !! "OPENAI_API_VERSION";
                       deployment_name := env !! "OPENAI_DEPLOYMENT_NAME";
                       client := c |})
    end.
Proof.
  unfold IdeaGeneratorAgent__init__, new_client.
  destruct (String.eqb
              (PyStr.lower (getenv_default env "OPENAI_API_TYPE" "openai"))
              "azure"); cbn [andb].
  - destruct (negb _); [reflexivity|].
    destruct (client_error _); reflexivity.
  - destruct (client_error _); reflexivity.
Qed.

(** The constructor never causes an event. *)
Lemma IdeaGeneratorAgent__init__no_event env :
  (IdeaGeneratorAgent__init__ client_error env).1 = [].
Proof.
  rewrite IdeaGeneratorAgent__init__spec. cbn zeta.
  repeat case_match; reflexivity.
Qed.

(** X10. Construction fails in two cases only: when the configured type
    reads "azure" (in any letter case) and one of the three gateway
    settings is missing or empty, or when the client constructor of the
    library raises for the arguments it is given, the key, version and
    endpoint for the gateway backend and the key alone otherwise. No
    event comes with either. *)
Theorem IdeaGeneratorAgent__init__fails_iff env :
  ((exists e, (IdeaGeneratorAgent__init__ client_error env).2 = Raise e)
   <-> (PyStr.lower (getenv_default env "OPENAI_API_TYPE" "openai") = "azure"
        /\ (truthy_option (env !! "OPENAI_API_BASE") = false
            \/ truthy_option (env !! "OPENAI_API_VERSION") = false
            \/ truthy_option (env !! "OPENAI_DEPLOYMENT_NAME") = false))
       \/ is_Some
            (client_error
               (if String.eqb
                     (PyStr.lower
                        (getenv_default env "OPENAI_API_TYPE" "openai"))
                     "azure"
                then OpenAI.AzureOpenAI (env !! "OPENAI_API_KEY")
                       (env !! "OPENAI_API_VERSION") (env !! "OPENAI_API_BASE")
                else OpenAI.OpenAI (env !! "OPENAI_API_KEY"))))
  /\ (IdeaGeneratorAgent__init__ client_error env).1 = [].
Proof.
  split; [|apply IdeaGeneratorAgent__init__no_event].
  rewrite IdeaGeneratorAgent__init__spec. cbn zeta.
  destruct (String.eqb_spec
              (PyStr.lower (getenv_default env "OPENAI_API_TYPE" "openai"))
              "azure") as [Hz|Hz]; cbn [andb].
  - destruct (truthy_option (env !! "OPENAI_API_BASE")),
             (truthy_option (env !! "OPENAI_API_VERSION")),
             (truthy_option (env !! "OPENAI_DEPLOYMENT_NAME"));
      cbn [andb negb].
    2-8: split; [intros _; left; split; [exact Hz|]; auto | intros _; eauto].
    destruct (client_error _) as [e|]; cbn [snd]; split.
    + intros _. right. eauto.
    + intros _. eauto.
    + intros [e He]. discriminate He.
    + intros [[_ [H | [H | H]]] | [e He]]; discriminate.
  - destruct (client_error _) as [e|]; cbn [snd]; split.
    + intros _. right. eauto.
    + intros _. eauto.
    + intros [e He]. discriminate He.
    + intros [[H _] | [e He]]; [contradiction | discriminate].
Qed.

(** X11. An agent built for the gateway backend holds a gateway client
    made of the key, the version and the endpoint of the environment;
    any other agent holds a direct client made of the key alone, and its
    model is "gpt-4o" unless the environment names one. *)
Theorem IdeaGeneratorAgent__init__client env (agent : IdeaGeneratorAgent) :
  (IdeaGeneratorAgent__init__ client_error env).2 = Return agent ->
  api_type agent = getenv_default env "OPENAI_API_TYPE" "openai"
  /\ model agent = default "gpt-4o" (env !! "OPENAI_MODEL")
  /\ deployment_name agent = env !! "OPENAI_DEPLOYMENT_NAME"
  /\ client agent =
     (if String.eqb (PyStr.lower (api_type agent)) "azure"
      then OpenAI.AzureOpenAI (env !! "OPENAI_API_KEY")
             (env !! "OPENAI_API_VERSION") (env !! "OPENAI_API_BASE")
      else OpenAI.OpenAI (env !! "OPENAI_API_KEY"))
  /\ (String.eqb (PyStr.lower (api_type agent)) "azure" = true ->
      truthy_option (deployment_name agent) = true).
Proof.
  rewrite IdeaGeneratorAgent__init__spec. cbn zeta.
  destruct (String.eqb
              (PyStr.lower (getenv_default env "OPENAI_API_TYPE" "openai"))
              "azure") eqn:Hz; cbn [andb].
  - destruct (truthy_option (env !! "OPENAI_API_BASE")),
             (truthy_option (env !! "OPENAI_API_VERSION")),
             (truthy_option (env !! "OPENAI_DEPLOYMENT_NAME")) eqn:Hd;
      cbn [andb negb]; try (intros Hret; discriminate Hret).
    destruct (client_error _); intros Hret; [discriminate Hret|].
    injection Hret as <-. cbn [api_type model deployment_name client].
    rewrite Hz. auto.
  - destruct (client_error _); intros Hret; [discriminate Hret|].
    injection Hret as <-. cbn [api_type model deployment_name client].
    rewrite Hz. repeat split. discriminate.
Qed.

End Construction.

Lemma IdeaGeneratorAgent__init__client_witness :
  client direct_agent = OpenAI.OpenAI (Some "sk-test").
Proof.
  destruct (IdeaGeneratorAgent__init__client keyless_client_error
              {[ "OPENAI_API_KEY" := "sk-test" ]} direct_agent)
    as (_ & _ & _ & Hclient & _).
  - reflexivity.
  - exact Hclient.
Defined.

Section Nodes.

Context (client_error : OpenAI.client -> option exn).
Context (backend :
  OpenAI.client -> OpenAI.create_params -> outcome OpenAI.ChatCompletion).

Implicit Types (env state : gmap string string) (e : exn).

(** When the constructor raises, it raises the configuration error or
    what the client constructor of the library raised. *)
Lemma IdeaGeneratorAgent__init__raises env e :
  (IdeaGeneratorAgent__init__ client_error env).2 = Raise e ->
  e = Exn RuntimeError "Missing Azure OpenAI configuration in .env"
  \/ exists c, client_error c = Some e.
Proof.
  rewrite IdeaGeneratorAgent__init__spec. cbn zeta.
  destruct (_ && _); cbn [snd].
  - intros [= <-]. left. reflexivity.
  - destruct (client_error _) as [e'|] eqn:Hc; cbn [snd].
    + intros [= <-]. right. eauto.
    + discriminate.
Qed.

(** The node is the stage run on a fresh agent. *)
Lemma ideaAgentNode_spec env state :
  ideaAgentNode client_error backend env state =
  match (IdeaGeneratorAgent__init__ client_error env).2 with
  | Return agent =>
      generate_idea_sync backend agent (default EmptyString (state !! "prompt"))
  | Raise e => ([], Raise e)
  end.
Proof.
  unfold ideaAgentNode.
  pose proof (IdeaGeneratorAgent__init__no_event client_error env) as Hno.
  destruct (IdeaGeneratorAgent__init__ client_error env) as [t [agent|e]];
    cbn [fst snd] in *; subst t.
  - rewrite io_bind_return. cbn [app].
    destruct (generate_idea_sync backend agent _) as [t r] eqn:Hg.
    destruct r as [d|e].
    + rewrite io_bind_return. cbn [fst snd mret io_ret].
      rewrite app_nil_r. reflexivity.
    + reflexivity.
  - reflexivity.
Qed.


(** X13. A node ends in one of four ways: with a delta whose only key
    is [ideas]; with the configuration error, before any event; with an
    exception that the client constructor of the library raised, before
    any event as well; or with an exception of the service that is not
    an [Exception]. *)
Theorem ideaAgentNode_outcomes env state :
  match (ideaAgentNode client_error backend env state).2 with
  | Return delta => dom delta = ({[ "ideas" ]} : gset string)
  | Raise e =>
      (e = Exn RuntimeError "Missing Azure OpenAI configuration in .env"
       /\ (ideaAgentNode client_error backend env state).1 = [])
      \/ ((exists c, client_error c = Some e)
          /\ (ideaAgentNode client_error backend env state).1 = [])
      \/ (isinstance_Exception e = false
          /\ exists c p, backend c p = Raise e)
  end.
Proof.
  rewrite ideaAgentNode_spec.
  destruct (IdeaGeneratorAgent__init__ client_error env).2
    as [agent|e0] eqn:Hinit.
  - destruct (generate_idea_sync_spec backend agent
                (default EmptyString (state !! "prompt")))
      as (p & _ & _ & _ & ->).
    destruct (backend (client agent) p) as [response|e] eqn:Hb.
    + destruct (OpenAI.choices response); cbn [snd]; apply dom_singleton_L.
    + destruct (isinstance_Exception e) eqn:He; cbn [snd].
      * apply dom_singleton_L.
      * right. right. split; [exact He|]. eauto.
  - cbn [fst snd].
    destruct (IdeaGeneratorAgent__init__raises env e0 Hinit) as [-> | Hc].
    + left. split; reflexivity.
    + right. left. split; [exact Hc | reflexivity].
Qed.

End Nodes.


(** ** Construction of the story manager *)

Section ManagerConstruction.

Implicit Types (env : gmap string string) (database_id : option string).

(** X14. Without a token, or with an empty one, the manager cannot be
    built, whatever database identifier is given; the token is checked
    first. *)
Theorem NotionStoryManager__init__needs_token env database_id :
  truthy_option (env !! "NOTION_TOKEN") = false ->
  NotionStoryManager__init__ env database_id
  = ([], Raise (Exn ValueError
                  "NOTION_TOKEN environment variable is required")).
Proof.
  intros Ht. unfold NotionStoryManager__init__. rewrite Ht. reflexivity.
Qed.

(** X15. With a token, a database identifier given as argument wins
    over the one of the environment; an argument that is [None] or empty
    falls back to the environment; and without either the construction
    fails. *)
Theorem NotionStoryManager__init__database_id env database_id token :
  env !! "NOTION_TOKEN" = Some token ->
  PyStr.truthy token = true ->
  (truthy_option database_id = true ->
   NotionStoryManager__init__ env database_id
   = ([], Return {| notion_token := token;
                    notion_client := {| Notion.auth := token |};
                    database_id := str_of_option database_id |}))
  /\ (truthy_option database_id = false ->
      truthy_option (env !! "NOTION_DATABASE_ID") = true ->
      NotionStoryManager__init__ env database_id
      = ([], Return {| notion_token := token;
                       notion_client := {| Notion.auth := token |};
                       database_id :=
                         str_of_option (env !! "NOTION_DATABASE_ID") |}))
  /\ (truthy_option database_id = false ->
      truthy_option (env !! "NOTION_DATABASE_ID") = false ->
      NotionStoryManager__init__ env database_id
      = ([], Raise (Exn ValueError
           "NOTION_DATABASE_ID environment variable or parameter is required"))).
Proof.
  intros Ht Htruthy. unfold NotionStoryManager__init__.
  rewrite Ht. cbn [truthy_option str_of_option]. rewrite Htruthy.
  cbn [negb].
  split; [|split].
  - intros Hd. rewrite Hd. cbn [negb]. rewrite Hd. reflexivity.
  - intros Hd He. rewrite Hd, He. reflexivity.
  - intros Hd He. rewrite Hd, He. reflexivity.
Qed.

Lemma fold_check_env_vars env :
  check_env_vars env =
  (if truthy_option (env !! "NOTION_TOKEN") then [] else ["NOTION_TOKEN"])
  ++ (if truthy_option (env !! "NOTION_DATABASE_ID") then []
      else ["NOTION_DATABASE_ID"]).
Proof.
  unfold check_env_vars. cbn [fold_left].
  destruct (truthy_option (env !! "NOTION_TOKEN")),
           (truthy_option (env !! "NOTION_DATABASE_ID")); reflexivity.
Qed.

(** X16. The setup check reports no missing variable exactly when a
    manager can be built from the environment alone. *)
Theorem check_env_vars_empty_iff_manager env :
  check_env_vars env = []
  <-> exists manager,
        NotionStoryManager__init__ env None = ([], Return manager).
Proof.
  rewrite fold_check_env_vars. unfold NotionStoryManager__init__.
  cbn [truthy_option].
  destruct (truthy_option (env !! "NOTION_TOKEN")) eqn:Ht; cbn [negb].
  - destruct (truthy_option (env !! "NOTION_DATABASE_ID")) eqn:Hd;
      cbn [negb app].
    + split; [intros _; eauto | reflexivity].
    + split; [discriminate|]. intros [m Hm]. discriminate Hm.
  - split.
    + destruct (truthy_option (env !! "NOTION_DATABASE_ID")); discriminate.
    + intros [m Hm]. discriminate Hm.
Qed.

(** X17. The setup check names a variable exactly when it is one of
    the two required ones and is unset or empty. *)
Theorem check_env_vars_lists_missing env (var : string) :
  var ∈ check_env_vars env
  <-> (var = "NOTION_TOKEN" \/ var = "NOTION_DATABASE_ID")
      /\ truthy_option (env !! var) = false.
Proof.
  rewrite fold_check_env_vars.
  destruct (truthy_option (env !! "NOTION_TOKEN")) eqn:Ht,
           (truthy_option (env !! "NOTION_DATABASE_ID")) eqn:Hd;
    cbn [app]; split.
  all: try (intros H; apply elem_of_nil in H; contradiction).
  all: try (intros [[-> | ->] H]; congruence).
  all: rewrite ?elem_of_cons, ?elem_of_nil.
  all: try (intros [-> | [-> | []]]; auto).
  all: try (intros [-> | []]; auto).
  all: try (intros [[-> | ->] H]; auto; congruence).
Qed.

End ManagerConstruction.

Lemma NotionStoryManager__init__needs_token_witness :
  NotionStoryManager__init__ ∅ (Some "db-1")
  = ([], Raise (Exn ValueError
                  "NOTION_TOKEN environment variable is required")).
Proof. apply NotionStoryManager__init__needs_token. reflexivity. Defined.

Lemma NotionStoryManager__init__database_id_witness :
  NotionStoryManager__init__ notion_env (Some "db-1")
  = ([], Return story_manager).
Proof.
  destruct (NotionStoryManager__init__database_id notion_env (Some "db-1")
              "secret_token") as (Harg & _ & _).
  - reflexivity.
  - reflexivity.
  - apply Harg. reflexivity.
Defined.

(** ** Further properties of the persistence adapter *)

Section AdapterFurther.

Implicit Types (self : NotionStoryManager) (e : exn).
Implicit Types (story_data : gmap string string).

(** The four optional properties of a created page, by the field of
    the story they come from. *)
Lemma create_story_page_properties_lookup story_data :
  create_story_page_properties story_data !! "Setting"
  = (fun s => Notion.rich_text [ text_item (_truncate_text s default_max_length) ])
      <$> story_data !! "setting"
  /\ create_story_page_properties story_data !! "Characters"
  = (fun s => Notion.rich_text [ text_item (_truncate_text s default_max_length) ])
      <$> story_data !! "characters"
  /\ create_story_page_properties story_data !! "Conflict"
  = (fun s => Notion.rich_text [ text_item (_truncate_text s default_max_length) ])
      <$> story_data !! "conflict"
  /\ create_story_page_properties story_data !! "Resolution"
  = (fun s => Notion.rich_text [ text_item (_truncate_text s default_max_length) ])
      <$> story_data !! "resolution".
Proof.
  unfold create_story_page_properties.
  repeat split; repeat case_match; simplify_map_eq; reflexivity.
Qed.

(** The properties of an updated page, likewise. *)
Lemma update_story_page_properties_lookup story_data :
  update_story_page_properties story_data !! "Title"
  = (fun s => Notion.title [ text_item (PyStr.slice_to s 100) ])
      <$> story_data !! "prompt"
  /\ update_story_page_properties story_data !! "Setting"
  = (fun s => Notion.rich_text [ text_item s ]) <$> story_data !! "setting"
  /\ update_story_page_properties story_data !! "Characters"
  = (fun s => Notion.rich_text [ text_item s ]) <$> story_data !! "characters"
  /\ update_story_page_properties story_data !! "Conflict"
  = (fun s => Notion.rich_text [ text_item s ]) <$> story_data !! "conflict"
  /\ update_story_page_properties story_data !! "Resolution"
  = (fun s => Notion.rich_text [ text_item s ]) <$> story_data !! "resolution".
Proof.
  unfold update_story_page_properties.
  repeat split; repeat case_match; simplify_map_eq; reflexivity.
Qed.

(** Truncation at the default limit leaves a text alone exactly when
    the text is within the limit. *)
Lemma truncate_text_fixed_iff (s : string) :
  _truncate_text s default_max_length = s <-> PyStr.len s <= 1900.
Proof.
  split.
  - intros Heq. apply (f_equal PyStr.len) in Heq.
    pose proof (len_truncate_le s default_max_length) as Hle.
    unfold default_max_length in *. lia.
  - apply truncate_short.
Qed.

End AdapterFurther.

Section AdapterRequests.

Context (store_create :
  Notion.client -> Notion.create_params -> outcome Notion.response).
Context (store_update :
  Notion.client -> Notion.update_params -> outcome Notion.response).

Implicit Types (self : NotionStoryManager) (e : exn).
Implicit Types (story_data : gmap string string).

(** X18. Whatever the story holds and whatever the store answers, every
    text in the one request of [create_story_page], in its properties
    and in its blocks, has at most 1900 characters. *)
Theorem create_story_page_request_within_limit self story_data :
  exists p,
    requests (create_story_page store_create self story_data).1
    = [PagesCreate (notion_client self) p]
    /\ submitted_texts_ok 1900 p.
Proof.
  eexists. split; [apply create_story_page_requests|].
  apply create_story_page_texts_within_limit.
Qed.

(** X19. A created page has the properties [Title] and [Status] always,
    each of [Setting], [Characters], [Conflict], [Resolution] exactly
    when the story has the field of that name, and no other property:
    the ideas and the story never become properties. *)
Theorem create_story_page_property_names story_data (name : string) :
  name ∈ dom (create_story_page_properties story_data)
  <-> name = "Title" \/ name = "Status"
      \/ (name = "Setting" /\ is_Some (story_data !! "setting"))
      \/ (name = "Characters" /\ is_Some (story_data !! "characters"))
      \/ (name = "Conflict" /\ is_Some (story_data !! "conflict"))
      \/ (name = "Resolution" /\ is_Some (story_data !! "resolution")).
Proof.
  unfold create_story_page_properties.
  destruct (story_data !! "setting"), (story_data !! "characters"),
           (story_data !! "conflict"), (story_data !! "resolution").
  all: rewrite ?dom_insert_L, dom_singleton_L.
  all: rewrite ?elem_of_union, !elem_of_singleton.
  all: rewrite ?is_Some_alt.
  all: intuition (try discriminate; auto).
Qed.

(** X20. A field of at most 1900 characters is stored as it is, and a
    field that the story lacks gives no property. *)
Theorem create_story_page_keeps_short_fields story_data (field name : string) :
  (field, name) ∈ [ ("setting", "Setting"); ("characters", "Characters");
                    ("conflict", "Conflict"); ("resolution", "Resolution") ] ->
  (forall s, story_data !! field = Some s -> PyStr.len s <= 1900 ->
     create_story_page_properties story_data !! name
     = Some (Notion.rich_text [ text_item s ]))
  /\ (story_data !! field = None ->
      create_story_page_properties story_data !! name = None).
Proof.
  intros Hin.
  destruct (create_story_page_properties_lookup story_data)
    as (H1 & H2 & H3 & H4).
  rewrite !elem_of_cons, elem_of_nil in Hin.
  destruct Hin as [Hp | [Hp | [Hp | [Hp | []]]]];
    injection Hp as -> ->.
  all: split; [intros s Hs Hlen | intros Hs].
  all: rewrite ?H1, ?H2, ?H3, ?H4, Hs; cbn [fmap option_fmap option_map].
  all: try reflexivity.
  all: rewrite (truncate_short s default_max_length) by exact Hlen.
  all: reflexivity.
Qed.

(** X21. The body of a created page starts with the heading "Generated
    Ideas" and ends with the heading "Complete Story" and a paragraph of
    the story, which is empty when the story is missing; between them
    stands a paragraph of the ideas exactly when the ideas are there and
    not empty, so that the body has four blocks or three. *)
Theorem create_story_page_children_layout story_data :
  length (create_story_page_children story_data)
  = (if truthy_option (story_data !! "ideas") then 4%nat else 3%nat)
  /\ head (create_story_page_children story_data)
     = Some {| Notion.object := "block";
               Notion.body :=
                 Notion.heading_1 [ typed_text_item "Generated Ideas" ] |}
  /\ (forall ideas, story_data !! "ideas" = Some ideas ->
        PyStr.truthy ideas = true ->
        create_story_page_children story_data !! 1%nat
        = Some {| Notion.object := "block";
                  Notion.body :=
                    Notion.paragraph
                      [ typed_text_item
                          (_truncate_text ideas default_max_length) ] |})
  /\ drop (length (create_story_page_children story_data) - 2)
          (create_story_page_children story_data)
     = [ {| Notion.object := "block";
            Notion.body :=
              Notion.heading_1 [ typed_text_item "Complete Story" ] |};
         {| Notion.object := "block";
            Notion.body :=
              Notion.paragraph
                [ typed_text_item
                    (_truncate_text
                       (default EmptyString (story_data !! "story"))
                       default_max_length) ] |} ].
Proof.
  unfold create_story_page_children.
  destruct (story_data !! "ideas") as [ideas|] eqn:Hi.
  - cbn [truthy_option]. destruct (PyStr.truthy ideas) eqn:Ht.
    + repeat split. intros ideas' [= <-] _. reflexivity.
    + repeat split. intros ideas' [= <-] Ht'. congruence.
  - repeat split. intros ideas' Hi'. discriminate Hi'.
Qed.

(** X22. Only seven fields of the story matter to the adapter: setting
    any other key, such as a page identifier or a status, changes
    neither what [create_story_page] does nor what [update_story_page]
    does. *)
Theorem adapter_ignores_other_keys self story_data (page_id key value : string) :
  key ∉ [ "prompt"; "setting"; "characters"; "conflict"; "resolution";
          "ideas"; "story" ] ->
  create_story_page store_create self (<[ key := value ]> story_data)
  = create_story_page store_create self story_data
  /\ update_story_page store_update self page_id (<[ key := value ]> story_data)
     = update_story_page store_update self page_id story_data.
Proof.
  intros Hkey.
  rewrite !not_elem_of_cons in Hkey.
  destruct Hkey as (? & ? & ? & ? & ? & ? & ? & _).
  unfold create_story_page, update_story_page,
    create_story_page_properties, create_story_page_children,
    update_story_page_properties.
  rewrite !lookup_insert_ne by congruence.
  split; reflexivity.
Qed.

(** X23. When the store call of [create_story_page] fails with an
    [Exception], exactly one line is printed after the request: it
    starts "Notion API error: " for an [APIResponseError] and "Error
    creating story page: " for any other, and carries the message. *)
Theorem create_story_page_failure_report self story_data e :
  isinstance_Exception e = true ->
  (forall c p, store_create c p = Raise e) ->
  exists p,
    (create_story_page store_create self story_data).1
    = [PagesCreate (notion_client self) p;
       Print ((if isinstance_APIResponseError e
               then "Notion API error: "
               else "Error creating story page: ") +:+ exn_str e)].
Proof.
  intros He Hfail. rewrite create_story_page_spec, Hfail.
  destruct (isinstance_APIResponseError e); [eauto|].
  rewrite He. eauto.
Qed.

(** X24. An update sets [Title] exactly when the story has a prompt
    (there is no fallback title), each of the four text properties
    exactly when the story has that field, and nothing else: never the
    status. A story without any of these fields still causes a
    request, with no property in it. *)
Theorem update_story_page_property_names self story_data
    (page_id name : string) :
  (name ∈ dom (update_story_page_properties story_data)
   <-> (name = "Title" /\ is_Some (story_data !! "prompt"))
       \/ (name = "Setting" /\ is_Some (story_data !! "setting"))
       \/ (name = "Characters" /\ is_Some (story_data !! "characters"))
       \/ (name = "Conflict" /\ is_Some (story_data !! "conflict"))
       \/ (name = "Resolution" /\ is_Some (story_data !! "resolution")))
  /\ requests (update_story_page store_update self page_id story_data).1
     = [PagesUpdate (notion_client self)
          {| Notion.page_id := page_id;
             Notion.update_properties :=
               update_story_page_properties story_data |}]
  /\ update_story_page_properties ∅ = ∅.
Proof.
  split; [|split].
  - unfold update_story_page_properties.
    destruct (story_data !! "prompt"),
             (story_data !! "setting"), (story_data !! "characters"),
             (story_data !! "conflict"), (story_data !! "resolution").
    all: rewrite ?dom_insert_L, ?dom_empty_L.
    all: rewrite ?elem_of_union, ?elem_of_singleton, ?elem_of_empty.
    all: rewrite ?is_Some_alt.
    all: intuition (try discriminate; auto).
  - rewrite update_story_page_spec.
    destruct (store_update _ _) as [response|e]; [reflexivity|].
    destruct (isinstance_APIResponseError e); [reflexivity|].
    destruct (isinstance_Exception e); reflexivity.
  - reflexivity.
Qed.

(** X25. When the store call of [update_story_page] fails, the
    exception goes on to the caller unchanged; an [Exception] is
    reported first, in one line that starts "Notion API error: " for an
    [APIResponseError] and "Error updating story page: " otherwise. *)
Theorem update_story_page_reraises self story_data (page_id : string) e :
  (forall c p, store_update c p = Raise e) ->
  (update_story_page store_update self page_id story_data).2 = Raise e
  /\ (isinstance_Exception e = true ->
      exists p,
        (update_story_page store_update self page_id story_data).1
        = [PagesUpdate (notion_client self) p;
           Print ((if isinstance_APIResponseError e
                   then "Notion API error: "
                   else "Error updating story page: ") +:+ exn_str e)]).
Proof.
  intros Hfail. rewrite update_story_page_spec, Hfail.
  destruct (isinstance_APIResponseError e).
  - split; [reflexivity|]. eauto.
  - destruct (isinstance_Exception e).
    + split; [reflexivity|]. eauto.
    + split; [reflexivity|]. discriminate.
Qed.

(** X26. For each of the four text fields, an update submits the same
    property as a creation exactly when the field is missing or has at
    most 1900 characters; and when the story has a prompt, both submit
    the same title, of at most 100 characters. *)
Theorem update_agrees_with_create story_data (field name : string) :
  (field, name) ∈ [ ("setting", "Setting"); ("characters", "Characters");
                    ("conflict", "Conflict"); ("resolution", "Resolution") ] ->
  (update_story_page_properties story_data !! name
   = create_story_page_properties story_data !! name
   <-> forall s, story_data !! field = Some s -> PyStr.len s <= 1900)
  /\ (forall prompt, story_data !! "prompt" = Some prompt ->
        update_story_page_properties story_data !! "Title"
        = create_story_page_properties story_data !! "Title"
        /\ PyStr.len (PyStr.slice_to prompt 100) <= 100).
Proof.
  intros Hin.
  destruct (create_story_page_properties_lookup story_data)
    as (C1 & C2 & C3 & C4).
  destruct (update_story_page_properties_lookup story_data)
    as (U0 & U1 & U2 & U3 & U4).
  split.
  - rewrite !elem_of_cons, elem_of_nil in Hin.
    destruct Hin as [Hp | [Hp | [Hp | [Hp | []]]]];
      injection Hp as -> ->.
    all: rewrite ?C1, ?C2, ?C3, ?C4, ?U1, ?U2, ?U3, ?U4.
    all: clear C1 C2 C3 C4 U0 U1 U2 U3 U4.
    all: destruct (story_data !! _) as [s|];
         cbn [fmap option_fmap option_map].
    all: split.
    all: try (intros _ s' Hs'; discriminate Hs').
    all: try (intros _; reflexivity).
    all: try (intros Heq s' [= <-]; unfold text_item in Heq;
              apply truncate_text_fixed_iff; congruence).
    all: intros Hall;
         rewrite (proj2 (truncate_text_fixed_iff s) (Hall s eq_refl));
         reflexivity.
  - intros prompt Hp. split.
    + rewrite U0, create_story_page_properties_title, Hp. reflexivity.
    + apply len_slice_to_le. lia.
Qed.

End AdapterRequests.

Lemma create_story_page_keeps_short_fields_witness :
  create_story_page_properties {[ "setting" := "A greenhouse at night" ]}
    !! "Setting"
  = Some (Notion.rich_text [ text_item "A greenhouse at night" ]).
Proof.
  destruct (create_story_page_keeps_short_fields
              {[ "setting" := "A greenhouse at night" ]} "setting" "Setting")
    as [Hkept _].
  - apply list_elem_of_here.
  - apply Hkept; [reflexivity | vm_compute; discriminate].
Defined.

Lemma adapter_ignores_other_keys_witness :
  create_story_page accepting_create story_manager
    (<[ "notion_page_id" := "page-0" ]> cat_story)
  = create_story_page accepting_create story_manager cat_story.
Proof.
  apply (adapter_ignores_other_keys accepting_create accepting_update
           story_manager cat_story "page-1" "notion_page_id" "page-0").
  rewrite !not_elem_of_cons. repeat split; try discriminate.
  apply not_elem_of_nil.
Defined.

Lemma create_story_page_failure_report_witness :
  exists p,
    (create_story_page rejecting_create story_manager cat_story).1
    = [PagesCreate (notion_client story_manager) p;
       Print "Notion API error: validation_error"].
Proof.
  apply (create_story_page_failure_report rejecting_create story_manager
           cat_story validation_error).
  - reflexivity.
  - intros c p. reflexivity.
Defined.

Lemma update_story_page_reraises_witness :
  (update_story_page rejecting_update story_manager "page-1" cat_story).2
  = Raise validation_error.
Proof.
  apply (update_story_page_reraises rejecting_update story_manager cat_story
           "page-1" validation_error).
  intros c p. reflexivity.
Defined.

Lemma update_agrees_with_create_witness :
  update_story_page_properties long_setting_story !! "Setting"
  = create_story_page_properties long_setting_story !! "Setting"
  <-> forall s, long_setting_story !! "setting" = Some s -> PyStr.len s <= 1900.
Proof.
  apply (update_agrees_with_create long_setting_story "setting" "Setting").
  apply list_elem_of_here.
Defined.

(** ** Reading and archiving *)

Section ReadingAndArchiving.

Context (store_query :
  Notion.client -> string -> Z -> outcome Admin.response).
Context (store_archive :
  Notion.client -> string -> bool -> outcome Notion.response).

Implicit Types (self : NotionStoryManager) (e : exn) (limit : Z).

(** X27. A manager whose database identifier is empty does not query
    the store: [get_story_pages] reports the missing identifier and
    raises a [ValueError], without any request. *)
Theorem get_story_pages_without_database self limit :
  PyStr.truthy (database_id self) = false ->
  Admin.get_story_pages store_query self limit
  = ([Admin.Print "Error retrieving story pages: Database ID is required"],
     Raise (Exn ValueError "Database ID is required")).
Proof.
  intros Hdb. unfold Admin.get_story_pages. rewrite Hdb. reflexivity.
Qed.

(** X28. With a database identifier, [get_story_pages] queries that
    database once, with the limit as page size. An answer that is
    neither an object nor a dictionary gives a dictionary whose
    [results] are the empty list; a failure of the store goes on to the
    caller unchanged. *)
Theorem get_story_pages_with_database self limit :
  PyStr.truthy (database_id self) = true ->
  (exists printed,
     (Admin.get_story_pages store_query self limit).1
     = Admin.DatabasesQuery (notion_client self) (database_id self) limit
       :: printed
     /\ forall ev, ev ∈ printed -> exists line, ev = Admin.Print line)
  /\ (forall str,
        store_query (notion_client self) (database_id self) limit
        = Return (Admin.Other str) ->
        (Admin.get_story_pages store_query self limit).2
        = Return {[ "results" := Admin.Pages [] ]})
  /\ (forall d,
        store_query (notion_client self) (database_id self) limit
        = Return (Admin.Dict d) ->
        (Admin.get_story_pages store_query self limit).2 = Return d)
  /\ (forall e,
        store_query (notion_client self) (database_id self) limit = Raise e ->
        (Admin.get_story_pages store_query self limit).2 = Raise e).
Proof.
  intros Hdb. unfold Admin.get_story_pages. rewrite Hdb. cbn [negb].
  destruct (store_query (notion_client self) (database_id self) limit)
    as [[d|d|str]|e] eqn:Hq.
  1-3: split; [exists []; split; [reflexivity|];
               intros ev Hev; apply elem_of_nil in Hev; contradiction|].
  1-3: repeat split; intros; simplify_eq; reflexivity.
  - unfold Admin.try_except, mbind, mret, Admin.io_bind, Admin.io_ret,
      Admin.except, Admin.raise, Admin.print.
    cbn [Admin.find_clause app].
    destruct (isinstance_APIResponseError e);
      [|destruct (isinstance_Exception e)].
    all: split;
      [ eexists; split; [reflexivity|]; intros ev Hev;
        rewrite ?elem_of_cons, ?elem_of_nil in Hev;
        try (destruct Hev as [-> | []]; eauto); try contradiction
      | repeat split; intros; simplify_eq; reflexivity ].
Qed.

(** X29. [delete_story_page] asks the store to archive the page, once,
    and never returns [False]: it returns [True] when the store
    accepts, and otherwise the exception of the store goes on to the
    caller. *)
Theorem delete_story_page_true_or_raises self (page_id : string) :
  (Admin.delete_story_page store_archive self page_id).2 <> Return false
  /\ (exists printed,
        (Admin.delete_story_page store_archive self page_id).1
        = Admin.PagesUpdateArchived (notion_client self) page_id true
          :: printed
        /\ forall ev, ev ∈ printed -> exists line, ev = Admin.Print line)
  /\ match store_archive (notion_client self) page_id true with
     | Return _ =>
         Admin.delete_story_page store_archive self page_id
         = ([Admin.PagesUpdateArchived (notion_client self) page_id true],
            Return true)
     | Raise e =>
         (Admin.delete_story_page store_archive self page_id).2 = Raise e
     end.
Proof.
  unfold Admin.delete_story_page.
  destruct (store_archive (notion_client self) page_id true) as [r|e].
  - split; [discriminate|]. split; [|reflexivity].
    exists []. split; [reflexivity|].
    intros ev Hev. apply elem_of_nil in Hev. contradiction.
  - unfold Admin.try_except, mbind, mret, Admin.io_bind, Admin.io_ret,
      Admin.except, Admin.raise, Admin.print.
    cbn [Admin.find_clause app].
    destruct (isinstance_APIResponseError e);
      [|destruct (isinstance_Exception e)].
    all: split; [discriminate|]; split; [|reflexivity].
    all: eexists; split; [reflexivity|]; intros ev Hev;
      rewrite ?elem_of_cons, ?elem_of_nil in Hev;
      try (destruct Hev as [-> | []]; eauto); try contradiction.
Qed.

End ReadingAndArchiving.

Lemma get_story_pages_without_database_witness :
  Admin.get_story_pages rejecting_query manager_without_database 10
  = ([Admin.Print "Error retrieving story pages: Database ID is required"],
     Raise (Exn ValueError "Database ID is required")).
Proof. apply get_story_pages_without_database. reflexivity. Defined.

Lemma get_story_pages_with_database_witness :
  (Admin.get_story_pages rejecting_query story_manager 10).2
  = Raise validation_error.
Proof.
  destruct (get_story_pages_with_database rejecting_query story_manager 10)
    as (_ & _ & _ & Hraise).
  - reflexivity.
  - apply Hraise. reflexivity.
Defined.
